(** * Tailscale node monitor: the scheduled reconciliation and the status endpoint

    A shallow embedding of the Cloudflare worker of this repository
    ([src/index.js], [src/tailscaleService.js], [src/tailscaleAuthService.js],
    [src/telegramNotifier.js], [src/config.js], [src/envChecker.js]) and the
    properties of its specification.

    Conventions of the embedding.
    - JavaScript numbers that hold epoch milliseconds are integers ([Z]);
      quotients of such numbers (minutes) are exact rationals ([Q]), and
      [Math.round] is the floor of the argument plus one half.  On epoch
      milliseconds and on intervals of configuration size the
      double-precision quotient compares and rounds as the exact one.
    - [parseInt] yields an integer or [NaN] ([jsint]); every comparison with
      [NaN] is false, as in JavaScript.
    - An [async] function is a computation over the worker's surroundings:
      the KV namespace, the clock, the Telegram API and the Tailscale API.
      A rejected promise or a thrown exception is the result [Thrown]; the
      effects performed before it stay in the world.
    - Console output is not part of the model, and neither is the
      [controller] of a scheduled event, which the handler only logs. *)

From Stdlib Require Import ZArith QArith Qround Lqa String Ascii List Sorted Lia.
From stdpp Require Import gmap strings pretty.
Import ListNotations.
Close Scope Q_scope.
Local Open Scope string_scope.
Local Open Scope Z_scope.

(** ** JavaScript values *)

Module Js.

(** The result of [parseInt]: an integer, or [NaN]. *)
Inductive jsint : Type :=
| JsInt (z : Z)
| JsNaN.

(** [q >= r] and [q <= r] for a finite number [q] and the result of a
    [parseInt]: false when [r] is [NaN]. *)
Definition ge (q : Q) (r : jsint) : bool :=
  match r with
  | JsInt z => Qle_bool (inject_Z z) q
  | JsNaN => false
  end.

Definition le (q : Q) (r : jsint) : bool :=
  match r with
  | JsInt z => Qle_bool q (inject_Z z)
  | JsNaN => false
  end.

(** [Math.round]: the nearest integer, a tie going up. *)
Definition Math_round (q : Q) : Z := Qfloor (q + (1 # 2))%Q.

(** [ms / (1000 * 60)]. *)
Definition minutes_of (ms : Z) : Q := (inject_Z ms / inject_Z (1000 * 60))%Q.

(** Truthiness of a number and of a string. *)
Definition truthy_num (z : Z) : bool := negb (z =? 0).

Definition truthy_str (s : string) : bool :=
  match s with
  | EmptyString => false
  | String _ _ => true
  end.

(** [a || b] on numbers. *)
Definition or_num (a b : Z) : Z := if truthy_num a then a else b.

(** [s.split(sep)] for a separator of one character. *)
Fixpoint split (sep : ascii) (s : string) : list string :=
  match s with
  | EmptyString => [EmptyString]
  | String c rest =>
      if Ascii.eqb c sep then EmptyString :: split sep rest
      else match split sep rest with
           | h :: t => String c h :: t
           | [] => [String c EmptyString]
           end
  end.

(** [parts.join(sep)]. *)
Fixpoint join (sep : string) (parts : list string) : string :=
  match parts with
  | [] => EmptyString
  | [p] => p
  | p :: rest => p +:+ sep +:+ join sep rest
  end.

(** The line feed of a template string. *)
Definition nl : string := String "010"%char EmptyString.

(** A number inside a template string. *)
Definition show (z : Z) : string := pretty z.

(** What an [await], a call or a [throw] ends in. *)
Inductive outcome (A : Type) : Type :=
| Returned (a : A)
| Thrown (message : string).
#[global] Arguments Returned {A} a.
#[global] Arguments Thrown {A} message.

End Js.
Import Js.

(** ** Data model ([src/index.js], the typedefs) *)

Inductive node_state : Type := ONLINE | OFFLINE.

(** [StoredNodeState]: [state] is ['ONLINE'], ['OFFLINE'] or [null]. *)
Record StoredNodeState : Type := {
  state : option node_state;
  alertTs : Z;
  firstDownTs : Z
}.

#[global] Instance node_state_eq_dec : EqDecision node_state.
Proof. solve_decision. Defined.

#[global] Instance StoredNodeState_eq_dec : EqDecision StoredNodeState.
Proof. solve_decision. Defined.

(** [TailscaleDevice], as [getTailscaleNodeDetails] builds it.  The field
    [id] of the source is [deviceId] here. *)
Record TailscaleDevice : Type := {
  deviceId : string;
  name : string;
  hostname : string;
  tailscaleIp : option string;
  isOnline : bool;
  lastSeen : string;
  os : string;
  minutesSinceLastSeen : Z;
  tags : list string
}.

(** [state === "OFFLINE"] and [state === null]. *)
Definition is_offline (s : option node_state) : bool :=
  match s with
  | Some OFFLINE => true
  | _ => false
  end.

Definition is_null (s : option node_state) : bool :=
  match s with
  | None => true
  | Some _ => false
  end.

(** ** [src/telegramNotifier.js]: Markdown escaping *)

Definition charsToEscape : list ascii :=
  list_ascii_of_string "_*[]()~`>#+-=|{}.!".

Fixpoint escapeMarkdownV2 (text : string) : string :=
  match text with
  | EmptyString => EmptyString
  | String c rest =>
      if existsb (Ascii.eqb c) charsToEscape
      then String "\"%char (String c (escapeMarkdownV2 rest))
      else String c (escapeMarkdownV2 rest)
  end.

(** ** [src/index.js]: the key of a node and the three alerts *)

(** [node.name.split(".")[0]]. *)
Definition shortNodeName (node : TailscaleDevice) : string :=
  hd EmptyString (Js.split "."%char (name node)).

Definition kvKey (node : TailscaleDevice) : string :=
  "node:" +:+ deviceId node +:+ ":" +:+ shortNodeName node.

(** The message templates of [scheduled]. *)
Definition offline_message (escapedDeviceName lastSeenISO : string) (minutesAgo : Z) : string :=
  "🚨 *" +:+ escapedDeviceName +:+ " OFFLINE*" +:+ nl +:+ nl +:+
  "Last Seen: " +:+ lastSeenISO +:+ " \(" +:+ show minutesAgo +:+ " mins ago\)".

Definition still_offline_message (escapedDeviceName lastSeenISO : string)
    (minutesAgo totalDownMinutes : Z) : string :=
  "⏰ *" +:+ escapedDeviceName +:+ " STILL OFFLINE*" +:+ nl +:+ nl +:+
  "Last Seen: " +:+ lastSeenISO +:+ " \(" +:+ show minutesAgo +:+ " mins ago\)" +:+ nl +:+
  "Outage Duration: Approx " +:+ show totalDownMinutes +:+ " mins".

Definition online_message (escapedDeviceName : string) (duration : option Z) : string :=
  "✅ *" +:+ escapedDeviceName +:+ " ONLINE*" +:+
  match duration with
  | Some outageDurationMinutes =>
      nl +:+ "Was OFFLINE for approx. " +:+ show outageDurationMinutes +:+ " mins."
  | None => EmptyString
  end.

(** ** The worker's surroundings *)

(** The text stored under a key of the node-status namespace: the
    [JSON.stringify] image of a record, the empty text, or a text on which
    [JSON.parse] throws the [SyntaxError] it carries. *)
Inductive kvtext : Type :=
| RecordText (r : StoredNodeState)
| EmptyText
| BadText (syntaxError : string).

Definition JSON_stringify (r : StoredNodeState) : kvtext := RecordText r.

Definition JSON_parse (t : kvtext) : outcome StoredNodeState :=
  match t with
  | RecordText r => Returned r
  | EmptyText => Thrown "Unexpected end of JSON input"
  | BadText syntaxError => Thrown syntaxError
  end.

Definition truthy_text (t : kvtext) : bool :=
  match t with
  | EmptyText => false
  | _ => true
  end.

(** What the Telegram API does with one [fetch]: the request or the
    decoding of the reply fails, or the reply is a JSON object with its
    [ok], [description] and [error_code] members. *)
Inductive tg_net : Type :=
| TgRejects (fetchErr : string)
| TgReplies (ok : bool) (description : option string) (error_code : option Z).

(** A device as the Tailscale API lists it.  [lastSeenTime] is
    [new Date(lastSeen).getTime()], [None] for an invalid date. *)
Record ApiDevice : Type := {
  api_id : string;
  api_name : string;
  api_hostname : string;
  api_addresses : option (list string);
  api_lastSeen : string;
  lastSeenTime : option Z;
  api_os : string;
  api_tags : option (list string)
}.

(** What the Tailscale API does with the device query. *)
Inductive api_reply : Type :=
| ApiRejects (err : string)
| ApiNotOk (status : Z) (errorText : string)
| ApiBadJson (err : string)
| ApiData (devices : option (list ApiDevice)).

(** The calls that leave the worker, in the order they are made. *)
Inductive event : Type :=
| KvGet (key : string)
| KvPut (key : string) (value : kvtext)
| KvList
| TelegramPost (text botToken chatId : string) (reply : tg_net)
| TailscaleGet (tailnet : string).

(** What the surroundings answer: the readings of the clock and the replies
    of Telegram by the number of earlier calls, the keys whose read fails,
    the access token and the device list. *)
Record oracle : Type := {
  clock : nat -> Z;
  telegram_net : nat -> tg_net;
  kv_read_error : string -> option string;
  access_token : outcome string;
  tailscale_api : api_reply
}.

Record world : Type := {
  kv : gmap string kvtext;
  clock_reads : nat;
  telegram_calls : nat;
  trace : list event
}.

(** An [async] computation. *)
Definition M (A : Type) : Type := oracle -> world -> outcome A * world.

Definition ret {A : Type} (a : A) : M A := fun _ w => (Returned a, w).

Definition bind {A B : Type} (c : M A) (k : A -> M B) : M B :=
  fun o w =>
    match c o w with
    | (Returned a, w') => k a o w'
    | (Thrown e, w') => (Thrown e, w')
    end.

Definition try_catch {A : Type} (c : M A) (handler : string -> M A) : M A :=
  fun o w =>
    match c o w with
    | (Returned a, w') => (Returned a, w')
    | (Thrown e, w') => handler e o w'
    end.

Definition lift {A : Type} (r : outcome A) : M A := fun _ w => (r, w).

Declare Scope js_scope.
Delimit Scope js_scope with js.
Notation "x <- c ;; k" := (bind c (fun x => k))
  (at level 100, c at next level, k at level 200, right associativity) : js_scope.
Notation "c ;; k" := (bind c (fun _ => k))
  (at level 100, k at level 200, right associativity) : js_scope.
Local Open Scope js_scope.

Fixpoint for_each {A : Type} (l : list A) (body : A -> M unit) : M unit :=
  match l with
  | [] => ret tt
  | x :: rest => body x ;; for_each rest body
  end.

Definition record_event (e : event) (w : world) : world :=
  {| kv := kv w; clock_reads := clock_reads w;
     telegram_calls := telegram_calls w; trace := trace w ++ [e] |}.

(** [Date.now()] and [new Date()]. *)
Definition Date_now : M Z :=
  fun o w =>
    (Returned (clock o (clock_reads w)),
     {| kv := kv w; clock_reads := S (clock_reads w);
        telegram_calls := telegram_calls w; trace := trace w |}).

(** [nodeStatusKV.get], [.put] and [.list]. *)
Definition kv_get (key : string) : M (option kvtext) :=
  fun o w =>
    match kv_read_error o key with
    | Some e => (Thrown e, record_event (KvGet key) w)
    | None => (Returned (kv w !! key), record_event (KvGet key) w)
    end.

Definition kv_put (key : string) (value : kvtext) : M unit :=
  fun _ w =>
    (Returned tt,
     {| kv := <[key := value]> (kv w); clock_reads := clock_reads w;
        telegram_calls := telegram_calls w;
        trace := trace w ++ [KvPut key value] |}).

(** The names of the keys, in the order the map enumerates them. *)
Definition kv_list : M (list string) :=
  fun _ w => (Returned (map fst (map_to_list (kv w))), record_event KvList w).

(** ** [src/telegramNotifier.js]: [sendTelegramNotification] *)

Module Telegram.

Record result : Type := {
  success : bool;
  error : option string
}.

(** [fetch(telegramApiUrl, ...)] followed by [response.json()]. *)
Definition post (messageText botToken chatId : string)
    : M (bool * option string * option Z) :=
  fun o w =>
    let reply := telegram_net o (telegram_calls w) in
    let w' := {| kv := kv w; clock_reads := clock_reads w;
                 telegram_calls := S (telegram_calls w);
                 trace := trace w ++ [TelegramPost messageText botToken chatId reply] |} in
    match reply with
    | TgRejects fetchErr => (Thrown fetchErr, w')
    | TgReplies ok description error_code => (Returned (ok, description, error_code), w')
    end.

(** [responseData.description || responseData.error_code] in a template. *)
Definition describe (description : option string) (error_code : option Z) : string :=
  match description with
  | Some d => if truthy_str d then d
              else match error_code with Some c => show c | None => "undefined" end
  | None => match error_code with Some c => show c | None => "undefined" end
  end.

Definition sendTelegramNotification (messageText botToken chatId : string) : M result :=
  if negb (truthy_str botToken) || negb (truthy_str chatId) then
    ret {| success := false; error := Some "Telegram secrets not provided to function" |}
  else
    try_catch
      (responseData <- post messageText botToken chatId ;;
       let '(ok, description, error_code) := responseData in
       if negb ok then
         ret {| success := false;
                error := Some ("Telegram API Error: " +:+ describe description error_code) |}
       else
         ret {| success := true; error := None |})
      (fun fetchErr =>
         ret {| success := false; error := Some ("Workspace Error: " +:+ fetchErr) |}).

End Telegram.

(** ** [src/envChecker.js] and [src/config.js] *)

Module Config.

(** A member of [env]: a text variable or secret, or a KV binding. *)
Inductive envval : Type :=
| EnvText (s : string)
| EnvBinding.

Definition truthy (v : option envval) : bool :=
  match v with
  | Some (EnvText s) => truthy_str s
  | Some EnvBinding => true
  | None => false
  end.

(** A member of [env] read as a text ([undefined] for a missing one). *)
Definition text_of (v : option envval) : string :=
  match v with
  | Some (EnvText s) => s
  | Some EnvBinding => "[object Object]"
  | None => "undefined"
  end.

(** [env] is an object and [requiredKeys] an array here, so that the two
    "Internal Error" guards of the source never fire. *)
Definition ensureRequiredEnv (env : gmap string envval) (requiredKeys : list string)
    : outcome unit :=
  let missingKeys := List.filter (fun key => negb (truthy (env !! key))) requiredKeys in
  if (0 <? Z.of_nat (length missingKeys)) then
    Thrown ("Configuration Error: Missing required environment variable(s): "
            +:+ Js.join ", " missingKeys)
  else Returned tt.

Definition ALL_REQUIRED_KEYS : list string :=
  [ "API_ACCESS_TOKEN_WORKER"; "TELEGRAM_BOT_TOKEN"; "TELEGRAM_CHAT_ID";
    "TAILNET_NAME"; "TAILSCALE_OAUTH_CLIENT_ID"; "TAILSCALE_OAUTH_CLIENT_SECRET";
    "TAILSCALE_NODE_STATUS_KV"; "TAILSCALE_OAUTH_TOKEN_CACHE_KV";
    "DOWN_THRESHOLD_MINUTES"; "REMINDER_INTERVAL_MINUTES"; "MONITOR_TAGS";
    "TOKEN_KV_KEY"; "TOKEN_EXPIRY_BUFFER_SECONDS" ].

(** White space as [parseInt] and [trim] skip it (the ASCII part). *)
Definition is_space (c : ascii) : bool :=
  let n := nat_of_ascii c in
  (Nat.eqb n 32 || (Nat.leb 9 n && Nat.leb n 13))%bool.

Fixpoint skip_spaces (s : string) : string :=
  match s with
  | EmptyString => EmptyString
  | String c rest => if is_space c then skip_spaces rest else s
  end.

Definition digit_of (c : ascii) : option Z :=
  let n := nat_of_ascii c in
  if (Nat.leb 48 n && Nat.leb n 57)%bool then Some (Z.of_nat n - 48) else None.

(** The longest prefix of decimal digits, read as a number. *)
Fixpoint digits (s : string) (acc : option Z) : option Z :=
  match s with
  | EmptyString => acc
  | String c rest =>
      match digit_of c with
      | Some d => digits rest (Some (10 * default 0 acc + d))
      | None => acc
      end
  end.

(** [parseInt(s, 10)]. *)
Definition parseInt (s : string) : jsint :=
  let number (sign : Z) (t : string) :=
    match digits t None with
    | Some n => JsInt (sign * n)
    | None => JsNaN
    end in
  match skip_spaces s with
  | String "-"%char rest => number (-1) rest
  | String "+"%char rest => number 1 rest
  | t => number 1 t
  end.

Fixpoint rev_string (s acc : string) : string :=
  match s with
  | EmptyString => acc
  | String c rest => rev_string rest (String c acc)
  end.

Definition trim (s : string) : string :=
  rev_string (skip_spaces (rev_string (skip_spaces s) EmptyString)) EmptyString.

(** [AppConfig].  The two KV bindings are not members of the record: the
    node-status namespace is the [kv] of the world, and the token cache
    stands behind the [access_token] of the oracle. *)
Record AppConfig : Type := {
  apiAccessTokenWorker : string;
  telegramBotToken : string;
  telegramChatId : string;
  tailnetName : string;
  tsOauthClientId : string;
  tsOauthClientSecret : string;
  downThresholdMinutes : jsint;
  reminderIntervalMinutes : jsint;
  monitorTags : list string;
  tokenKVKey : string;
  tokenExpiryBufferSeconds : string
}.

Definition loadAppConfig (env : gmap string envval) : outcome AppConfig :=
  match ensureRequiredEnv env ALL_REQUIRED_KEYS with
  | Thrown e => Thrown e
  | Returned _ =>
      Returned
        {| apiAccessTokenWorker := text_of (env !! "API_ACCESS_TOKEN_WORKER");
           telegramBotToken := text_of (env !! "TELEGRAM_BOT_TOKEN");
           telegramChatId := text_of (env !! "TELEGRAM_CHAT_ID");
           tailnetName := text_of (env !! "TAILNET_NAME");
           tsOauthClientId := text_of (env !! "TAILSCALE_OAUTH_CLIENT_ID");
           tsOauthClientSecret := text_of (env !! "TAILSCALE_OAUTH_CLIENT_SECRET");
           downThresholdMinutes := parseInt (text_of (env !! "DOWN_THRESHOLD_MINUTES"));
           reminderIntervalMinutes := parseInt (text_of (env !! "REMINDER_INTERVAL_MINUTES"));
           monitorTags :=
             List.filter (fun tag => 0 <? Z.of_nat (String.length tag))
               (map trim (Js.split ","%char (text_of (env !! "MONITOR_TAGS"))));
           tokenKVKey := text_of (env !! "TOKEN_KV_KEY");
           tokenExpiryBufferSeconds := text_of (env !! "TOKEN_EXPIRY_BUFFER_SECONDS") |}
  end.

End Config.
Import Config.

(** ** [src/tailscaleService.js]: [getTailscaleNodeDetails] *)

Module Tailscale.

(** [TailscaleStatusResult]. *)
Record StatusResult : Type := {
  success : bool;
  devices : list TailscaleDevice;
  message : option string
}.

(** The body of the loop over the devices of the reply: the liveness
    verdict of one device.  [lastSeenDate.toISOString()] throws a
    [RangeError] on an invalid date. *)
Definition classify (now : Z) (downThresholdMinutes : jsint) (device : ApiDevice)
    : outcome TailscaleDevice :=
  match lastSeenTime device with
  | None => Thrown "Invalid time value"
  | Some lastSeenDate =>
      let minutesSinceLastSeen := minutes_of (now - lastSeenDate) in
      let isOnline := Js.le minutesSinceLastSeen downThresholdMinutes in
      Returned
        {| deviceId := api_id device;
           name := api_name device;
           hostname := api_hostname device;
           tailscaleIp :=
             match api_addresses device with
             | Some (address :: _) => Some address
             | _ => None
             end;
           isOnline := isOnline;
           lastSeen := api_lastSeen device;
           os := api_os device;
           minutesSinceLastSeen := Math_round minutesSinceLastSeen;
           tags := default [] (api_tags device) |}
  end.

Fixpoint classify_all (now : Z) (downThresholdMinutes : jsint) (devices : list ApiDevice)
    : outcome (list TailscaleDevice) :=
  match devices with
  | [] => Returned []
  | device :: rest =>
      match classify now downThresholdMinutes device with
      | Thrown e => Thrown e
      | Returned details =>
          match classify_all now downThresholdMinutes rest with
          | Thrown e => Thrown e
          | Returned devicesDetails => Returned (details :: devicesDetails)
          end
      end
  end.

(** [fetch(apiUrl, ...)] with the decoding of the reply. *)
Definition api_get (tailnetName : string) : M (list ApiDevice) :=
  fun o w =>
    let w' := record_event (TailscaleGet tailnetName) w in
    match tailscale_api o with
    | ApiRejects err => (Thrown err, w')
    | ApiNotOk status errorText =>
        (Thrown ("Tailscale API Error: " +:+ show status +:+ " - " +:+ errorText), w')
    | ApiBadJson err => (Thrown err, w')
    | ApiData devices => (Returned (default [] devices), w')
    end.

(** [getTailscaleAccessToken] is the [access_token] of the oracle: the
    token, or the error the OAuth exchange ends in. *)
Definition getTailscaleNodeDetails (config : AppConfig) : M StatusResult :=
  accessToken <- (fun o w => (access_token o, w)) ;;
  devices <- api_get (tailnetName config) ;;
  if (Z.of_nat (length devices) =? 0) then
    ret {| success := true; devices := []; message := Some "No devices found" |}
  else
    now <- Date_now ;;
    devicesDetails <- lift (classify_all now (downThresholdMinutes config) devices) ;;
    ret {| success := true; devices := devicesDetails; message := None |}.

End Tailscale.

(** ** [src/index.js]: [scheduled] *)

(** [node.tags.some((deviceTag) => config.monitorTags.includes(deviceTag))]. *)
Definition deviceHasRequiredTag (config : AppConfig) (node : TailscaleDevice) : bool :=
  existsb (fun deviceTag => existsb (String.eqb deviceTag) (monitorTags config)) (tags node).

(** The node reaches the [continue] of the tag filter. *)
Definition skipped (config : AppConfig) (node : TailscaleDevice) : bool :=
  (0 <? Z.of_nat (length (monitorTags config))) && negb (deviceHasRequiredTag config node).

Definition no_record : StoredNodeState :=
  {| state := None; alertTs := 0; firstDownTs := 0 |}.

(** [storedStateJSON ? JSON.parse(storedStateJSON) : { state: null, ... }]. *)
Definition previous_state (storedStateJSON : option kvtext) : outcome StoredNodeState :=
  match storedStateJSON with
  | Some t => if truthy_text t then JSON_parse t else Returned no_record
  | None => Returned no_record
  end.

Definition notify (config : AppConfig) (text : string) : M unit :=
  Telegram.sendTelegramNotification text
    (telegramBotToken config) (telegramChatId config) ;; ret tt.

(** The body of the loop over [statusResult.devices] (lines 112-262).  The
    two variables the branches assign, [needsKVWrite] and [newKVData], are
    the pair a branch ends in. *)
Definition process_node (config : AppConfig) (node : TailscaleDevice) : M unit :=
  if skipped config node then ret tt
  else
    storedStateJSON <- kv_get (kvKey node) ;;
    previousStateData <- lift (previous_state storedStateJSON) ;;
    let escapedDeviceName := escapeMarkdownV2 (shortNodeName node) in
    let lastSeenISO := escapeMarkdownV2 (lastSeen node) in
    let minutesAgo := minutesSinceLastSeen node in
    now <- Date_now ;;
    assigned <-
      (if negb (isOnline node) then
         let firstDownTimestamp :=
           if is_offline (state previousStateData)
              && truthy_num (firstDownTs previousStateData)
           then firstDownTs previousStateData
           else now in
         let message := offline_message escapedDeviceName lastSeenISO minutesAgo in
         if negb (is_offline (state previousStateData)) then
           (* ONLINE (or null) -> OFFLINE: it just went down *)
           let firstDownTimestamp := now in
           notify config message ;;
           ret (true, {| state := Some OFFLINE; alertTs := now;
                         firstDownTs := firstDownTimestamp |})
         else
           (* already OFFLINE: is it time for a reminder? *)
           let minutesSinceLastAlert := minutes_of (now - alertTs previousStateData) in
           if Js.ge minutesSinceLastAlert (reminderIntervalMinutes config) then
             let totalDownMinutes := Math_round (minutes_of (now - firstDownTimestamp)) in
             let message :=
               still_offline_message escapedDeviceName lastSeenISO
                 minutesAgo totalDownMinutes in
             notify config message ;;
             ret (true, {| state := Some OFFLINE; alertTs := now;
                           firstDownTs := firstDownTimestamp |})
           else ret (false, previousStateData)
       else
         if is_offline (state previousStateData) then
           (* OFFLINE -> ONLINE: it just recovered *)
           let outageDurationMs := now - or_num (firstDownTs previousStateData) now in
           let outageDurationMinutes := Math_round (minutes_of outageDurationMs) in
           let message :=
             online_message escapedDeviceName
               (if truthy_num (firstDownTs previousStateData) && (0 <? outageDurationMinutes)
                then Some outageDurationMinutes else None) in
           notify config message ;;
           ret (true, {| state := Some ONLINE; alertTs := 0; firstDownTs := 0 |})
         else if is_null (state previousStateData) then
           (* a new node, first seen ONLINE *)
           ret (true, {| state := Some ONLINE; alertTs := 0; firstDownTs := 0 |})
         else ret (false, previousStateData)) ;;
    let '(needsKVWrite, newKVData) := assigned in
    if needsKVWrite then kv_put (kvKey node) (JSON_stringify newKVData)
    else ret tt.

Definition process_devices (config : AppConfig) (devices : list TailscaleDevice) : M unit :=
  for_each devices (process_node config).

(** The [.then] callback of the status check. *)
Definition on_status (config : AppConfig) (statusResult : Tailscale.StatusResult) : M unit :=
  if negb (Tailscale.success statusResult) then
    notify config
      ("🚨 *Worker Error\!* " +:+
       escapeMarkdownV2
         (match Tailscale.message statusResult with
          | Some m => if truthy_str m then m
                      else "Failed to get node details for scheduled check."
          | None => "Failed to get node details for scheduled check."
          end))
  else if match Tailscale.message statusResult with
          | Some m => String.eqb m "No devices found"
          | None => false
          end then
    notify config "ℹ️ No Tailscale devices found in the tailnet\."
  else
    process_devices config (Tailscale.devices statusResult).

(** The [.catch] callback of the status check. *)
Definition on_error (config : AppConfig) (error_message : string) : M unit :=
  notify config
    ("🚨 *Worker Error\!* Failed during scheduled check: " +:+
     escapeMarkdownV2 error_message).

Definition scheduled (env : gmap string envval) : M unit :=
  match loadAppConfig env with
  | Thrown _ => ret tt
  | Returned config =>
      try_catch
        (statusResult <- Tailscale.getTailscaleNodeDetails config ;;
         on_status config statusResult)
        (on_error config)
  end.

(** ** [src/index.js]: [fetch] *)

Module Http.

Record Request : Type := {
  method : string;
  x_auth_token : option string
}.

(** A timestamp of the reply: [null], or the ISO text of an instant. *)
Inductive display_ts : Type :=
| ts_null
| ts_iso (ms : Z).

Record status_entry : Type := {
  nodeId : string;
  shortName : string;
  status_state : option node_state;
  status_alertTs : display_ts;
  status_firstDownTs : display_ts
}.

(** The JSON bodies: [{success: false, error}] and [{success: true, data}]. *)
Inductive body_json : Type :=
| Failure (error : string)
| Data (data : list status_entry).

Record Response : Type := {
  status : Z;
  headers : list (string * string);
  body : body_json
}.

(** A numeric timestamp for display; [toISOString] throws a [RangeError]
    outside the range of dates. *)
Definition humanReadable (ts : Z) : outcome display_ts :=
  if ts =? 0 then Returned ts_null
  else if (Z.abs ts <=? 8640000000000000) then Returned (ts_iso ts)
  else Thrown "Invalid time value".

(** The [try] block over one stored value: the entry to push, if any. *)
Definition entry_of (key_name : string) (storedValueJSON : kvtext)
    : outcome (option status_entry) :=
  match JSON_parse storedValueJSON with
  | Thrown e => Thrown e
  | Returned storedValue =>
      match Js.split ":"%char key_name with
      | [p0; p1; p2] =>
          if String.eqb p0 "node" then
            match humanReadable (alertTs storedValue) with
            | Thrown e => Thrown e
            | Returned humanReadableAlertTs =>
                match humanReadable (firstDownTs storedValue) with
                | Thrown e => Thrown e
                | Returned humanReadableFirstDownTs =>
                    Returned (Some {| nodeId := p1; shortName := p2;
                                      status_state := state storedValue;
                                      status_alertTs := humanReadableAlertTs;
                                      status_firstDownTs := humanReadableFirstDownTs |})
                end
            end
          else Returned None
      | _ => Returned None
      end
  end.

Fixpoint collect (keys : list string) : M (list status_entry) :=
  match keys with
  | [] => ret []
  | key_name :: rest =>
      storedValueJSON <- kv_get key_name ;;
      let pushed :=
        match storedValueJSON with
        | Some t =>
            if truthy_text t then
              match entry_of key_name t with
              | Returned (Some entry) => [entry]
              | Returned None => []
              | Thrown _ => []
              end
            else []
        | None => []
        end in
      kvStoredStatuses <- collect rest ;;
      ret (pushed ++ kvStoredStatuses)%list
  end.

Definition json_headers : list (string * string) :=
  [("Content-Type", "application/json")].

Definition fetch (request : Request) (env : gmap string envval) : M Response :=
  if negb (String.eqb (method request) "GET") then
    ret {| status := 405;
           headers := [("Content-Type", "application/json"); ("Allow", "GET")];
           body := Failure "Method Not Allowed" |}
  else
    match loadAppConfig env with
    | Thrown e =>
        ret {| status := 500; headers := json_headers;
               body := Failure ("Worker not configured: " +:+ e) |}
    | Returned config =>
        if truthy_str (apiAccessTokenWorker config)
           && negb (bool_decide (x_auth_token request = Some (apiAccessTokenWorker config)))
        then
          ret {| status := 401; headers := json_headers; body := Failure "Unauthorized" |}
        else
          try_catch
            (keys <- kv_list ;;
             kvStoredStatuses <- collect keys ;;
             ret {| status := 200; headers := json_headers;
                    body := Data kvStoredStatuses |})
            (fun e =>
               ret {| status := 500; headers := json_headers;
                      body := Failure ("Failed to retrieve statuses from KV: " +:+ e) |})
    end.

End Http.

(** ** The loop body as a decision

    A pass over a node takes one decision: the message to send (if any),
    the record [newKVData] and the flag [needsKVWrite].  [reconcile] is
    that decision as a function of the prior record, the observation, the
    reading of the clock and the reminder interval; [process_node_run]
    below shows that [process_node] reads the store and the clock, takes
    this decision, sends its message and carries out its write. *)

Record decision : Type := {
  message : option string;
  newKVData : StoredNodeState;
  needsKVWrite : bool
}.

Definition reconcile (previousStateData : StoredNodeState) (node : TailscaleDevice)
    (now : Z) (reminderIntervalMinutes : jsint) : decision :=
  let escapedDeviceName := escapeMarkdownV2 (shortNodeName node) in
  let lastSeenISO := escapeMarkdownV2 (lastSeen node) in
  let minutesAgo := minutesSinceLastSeen node in
  if negb (isOnline node) then
    let firstDownTimestamp :=
      if is_offline (state previousStateData) && truthy_num (firstDownTs previousStateData)
      then firstDownTs previousStateData
      else now in
    if negb (is_offline (state previousStateData)) then
      (* ONLINE (or null) -> OFFLINE: the initial alert *)
      {| message := Some (offline_message escapedDeviceName lastSeenISO minutesAgo);
         newKVData := {| state := Some OFFLINE; alertTs := now; firstDownTs := now |};
         needsKVWrite := true |}
    else
      let minutesSinceLastAlert := minutes_of (now - alertTs previousStateData) in
      if Js.ge minutesSinceLastAlert reminderIntervalMinutes then
        let totalDownMinutes := Math_round (minutes_of (now - firstDownTimestamp)) in
        {| message := Some (still_offline_message escapedDeviceName lastSeenISO
                              minutesAgo totalDownMinutes);
           newKVData := {| state := Some OFFLINE; alertTs := now;
                           firstDownTs := firstDownTimestamp |};
           needsKVWrite := true |}
      else
        {| message := None; newKVData := previousStateData; needsKVWrite := false |}
  else
    if is_offline (state previousStateData) then
      (* OFFLINE -> ONLINE: recovered *)
      let outageDurationMs := now - or_num (firstDownTs previousStateData) now in
      let outageDurationMinutes := Math_round (minutes_of outageDurationMs) in
      {| message := Some (online_message escapedDeviceName
                            (if truthy_num (firstDownTs previousStateData)
                                && (0 <? outageDurationMinutes)
                             then Some outageDurationMinutes else None));
         newKVData := {| state := Some ONLINE; alertTs := 0; firstDownTs := 0 |};
         needsKVWrite := true |}
    else if is_null (state previousStateData) then
      (* a new node, first seen ONLINE *)
      {| message := None;
         newKVData := {| state := Some ONLINE; alertTs := 0; firstDownTs := 0 |};
         needsKVWrite := true |}
    else
      {| message := None; newKVData := previousStateData; needsKVWrite := false |}.

(** What the loop body does once it holds a decision: the notification,
    then the write. *)
Definition carry_out (config : AppConfig) (node : TailscaleDevice) (d : decision) : M unit :=
  match message d with
  | Some text => notify config text
  | None => ret tt
  end ;;
  if needsKVWrite d then kv_put (kvKey node) (JSON_stringify (newKVData d))
  else ret tt.

(** The record a decision persists, if it persists one. *)
Definition persisted (d : decision) : option StoredNodeState :=
  if needsKVWrite d then Some (newKVData d) else None.

(** The decision taken in world [w]: the clock is read once, after the
    store. *)
Definition decision_in (config : AppConfig) (node : TailscaleDevice)
    (o : oracle) (w : world) (prev : StoredNodeState) : decision :=
  reconcile prev node (clock o (clock_reads w)) (reminderIntervalMinutes config).

Definition store_after (key : string) (d : decision) (store : gmap string kvtext)
    : gmap string kvtext :=
  match persisted d with
  | Some r => <[key := RecordText r]> store
  | None => store
  end.

(** The texts that reach Telegram: none while a secret is missing. *)
Definition sent (config : AppConfig) (text : option string) : list string :=
  match text with
  | Some t =>
      if truthy_str (telegramBotToken config) && truthy_str (telegramChatId config)
      then [t] else []
  | None => []
  end.

(** The start of the outage a reminder reports: the stored [firstDownTs],
    or [now] when the stored one is zero. *)
Definition down_since (firstDown now : Z) : Z :=
  if firstDown =? 0 then now else firstDown.

(** The writes and the notification texts of a trace. *)
Definition puts (t : list event) : list (string * kvtext) :=
  omap (fun e => match e with KvPut k v => Some (k, v) | _ => None end) t.

Definition posts (t : list event) : list string :=
  omap (fun e => match e with TelegramPost text _ _ _ => Some text | _ => None end) t.

Definition gets (t : list event) : list string :=
  omap (fun e => match e with KvGet k => Some k | _ => None end) t.

(** What a call of the notifier leaves untouched. *)
Definition same_store (w w' : world) : Prop :=
  kv w' = kv w /\ clock_reads w' = clock_reads w /\
  puts (trace w') = puts (trace w) /\ gets (trace w') = gets (trace w).

(** ** Records and outages *)

(** The shape of a record: [firstDownTs] is set exactly in state OFFLINE,
    and an ONLINE record has both timestamps cleared. *)
Definition well_formed (r : StoredNodeState) : Prop :=
  (firstDownTs r <> 0 <-> state r = Some OFFLINE) /\
  (state r = Some ONLINE -> alertTs r = 0 /\ firstDownTs r = 0).

Definition written_ok (p : string * kvtext) : Prop :=
  exists r, snd p = RecordText r /\ well_formed r.

(** Two successive records of one outage: [firstDownTs] does not go down. *)
Definition episode_le (r r' : StoredNodeState) : Prop :=
  state r = Some OFFLINE -> state r' = Some OFFLINE -> firstDownTs r <= firstDownTs r'.

(** The records a node's key holds after each of a series of passes, a pass
    being the observation of the node and the reading of the clock. *)
Fixpoint replay (interval : jsint) (prev : StoredNodeState)
    (passes : list (TailscaleDevice * Z)) : list StoredNodeState :=
  match passes with
  | [] => []
  | (node, now) :: rest =>
      let next := newKVData (reconcile prev node now interval) in
      next :: replay interval next rest
  end.

(** The text of the alert that the [.catch] of the cycle sends. *)
Definition worker_error_text (e : string) : string :=
  "🚨 *Worker Error\!* Failed during scheduled check: " +:+ escapeMarkdownV2 e.

(** ** Sample surroundings *)

Definition sample_node (ident : string) (online : bool) (nodeTags : list string)
    : TailscaleDevice :=
  {| deviceId := ident; name := ident +:+ ".tail1234.ts.net"; hostname := ident;
     tailscaleIp := Some "100.64.0.1"; isOnline := online;
     lastSeen := "2025-01-01T00:00:00Z"; os := "linux";
     minutesSinceLastSeen := 20; tags := nodeTags |}.

Definition sample_env (reminder tagsText : string) : gmap string envval :=
  list_to_map
    [ ("API_ACCESS_TOKEN_WORKER", EnvText "secret"); ("TELEGRAM_BOT_TOKEN", EnvText "bot");
      ("TELEGRAM_CHAT_ID", EnvText "42"); ("TAILNET_NAME", EnvText "example.com");
      ("TAILSCALE_OAUTH_CLIENT_ID", EnvText "cid");
      ("TAILSCALE_OAUTH_CLIENT_SECRET", EnvText "cs");
      ("TAILSCALE_NODE_STATUS_KV", EnvBinding);
      ("TAILSCALE_OAUTH_TOKEN_CACHE_KV", EnvBinding);
      ("DOWN_THRESHOLD_MINUTES", EnvText "15");
      ("REMINDER_INTERVAL_MINUTES", EnvText reminder);
      ("MONITOR_TAGS", EnvText tagsText);
      ("TOKEN_KV_KEY", EnvText "tailscale_oauth_token");
      ("TOKEN_EXPIRY_BUFFER_SECONDS", EnvText "300") ].

Definition sample_config (reminder tagsText : string) : AppConfig :=
  match loadAppConfig (sample_env reminder tagsText) with
  | Returned config => config
  | Thrown _ =>
      {| apiAccessTokenWorker := ""; telegramBotToken := ""; telegramChatId := "";
         tailnetName := ""; tsOauthClientId := ""; tsOauthClientSecret := "";
         downThresholdMinutes := JsNaN; reminderIntervalMinutes := JsNaN;
         monitorTags := []; tokenKVKey := ""; tokenExpiryBufferSeconds := "" |}
  end.

Definition sample_oracle (now : Z) (reply : tg_net) : oracle :=
  {| clock := fun _ => now;
     telegram_net := fun _ => reply;
     kv_read_error := fun _ => None;
     access_token := Returned "token";
     tailscale_api := ApiData None |}.

Definition sample_world (store : gmap string kvtext) : world :=
  {| kv := store; clock_reads := 0; telegram_calls := 0; trace := [] |}.

(** The surroundings of the examples: the node [pi], tagged
    [tag:critical], under the configuration of [wrangler.toml]. *)
Definition pi_node (online : bool) : TailscaleDevice :=
  sample_node "pi" online ["tag:critical"].

Definition pi_store (r : StoredNodeState) : gmap string kvtext :=
  {[ "node:pi:pi" := RecordText r ]}.

Definition delivered : tg_net := TgReplies true None None.

(** Two nodes of the tailnet, last seen at the epoch, and a cycle that runs
    100 minutes later under a threshold of 15 minutes: both are offline. *)
Definition api_node (ident : string) : ApiDevice :=
  {| api_id := ident; api_name := ident +:+ ".tail1234.ts.net"; api_hostname := ident;
     api_addresses := Some ["100.64.0.1"]; api_lastSeen := "1970-01-01T00:00:00Z";
     lastSeenTime := Some 0; api_os := "linux"; api_tags := Some ["tag:critical"] |}.

Definition two_nodes_oracle : oracle :=
  {| clock := fun _ => 6000000;
     telegram_net := fun _ => delivered;
     kv_read_error := fun _ => None;
     access_token := Returned "token";
     tailscale_api := ApiData (Some [api_node "a"; api_node "b"]) |}.

Definition offline_node (ident : string) : TailscaleDevice :=
  {| deviceId := ident; name := ident +:+ ".tail1234.ts.net"; hostname := ident;
     tailscaleIp := Some "100.64.0.1"; isOnline := false;
     lastSeen := "1970-01-01T00:00:00Z"; os := "linux";
     minutesSinceLastSeen := 100; tags := ["tag:critical"] |}.

(** ** [src/tailscaleAuthService.js]: the cached access token

    The handlers above take the access token from their surroundings.
    This module embeds the function that produces it, over the token cache
    namespace, the clock and the OAuth endpoint of Tailscale.  Seconds and
    milliseconds are integers; [tokenExpiryBufferSeconds] is the number the
    setting coerces to under [-] and [/], an integer or [NaN]. *)

Module Auth.

(** The text stored under the token key: a JSON object with its
    [accessToken] (the empty text when it has none) and its [expiresAt]
    ([NaN] when it has none or [null], which is how [JSON.stringify] writes
    [NaN]), the empty text, or a text on which [JSON.parse] or the member
    access throws. *)
Inductive cachetext : Type :=
| TokenText (accessToken : string) (expiresAt : jsint)
| EmptyText
| BadText (syntaxError : string).

Record CachedTokenData : Type := {
  accessToken : string;
  expiresAt : jsint
}.

Definition JSON_stringify (d : CachedTokenData) : cachetext :=
  TokenText (accessToken d) (expiresAt d).

Definition JSON_parse (t : cachetext) : outcome CachedTokenData :=
  match t with
  | TokenText a e => Returned {| accessToken := a; expiresAt := e |}
  | EmptyText => Thrown "Unexpected end of JSON input"
  | BadText syntaxError => Thrown syntaxError
  end.

Definition truthy_text (t : cachetext) : bool :=
  match t with
  | EmptyText => false
  | _ => true
  end.

(** Truthiness of a number that may be [NaN], and [z < n]. *)
Definition truthy_jsint (n : jsint) : bool :=
  match n with
  | JsInt z => negb (z =? 0)
  | JsNaN => false
  end.

Definition lt (z : Z) (n : jsint) : bool :=
  match n with
  | JsInt m => z <? m
  | JsNaN => false
  end.

(** [TailscaleOAuthTokenResponse]. *)
Record TokenResponse : Type := {
  access_token : string;
  expires_in : jsint
}.

(** What the OAuth endpoint does with one request: the [fetch] or the
    reading of the body is rejected, the reply is not [ok], its JSON does not
    decode, or it is the token data. *)
Inductive oauth_reply : Type :=
| OauthRejects (err : string)
| OauthNotOk (status : Z) (errorText : string)
| OauthBadJson (err : string)
| OauthData (tokenData : TokenResponse).

(** [Date.now() + (expires_in - buffer) * 1000] and
    [expires_in - buffer / 2]. *)
Definition expiry (now : Z) (expires_in buffer : jsint) : jsint :=
  match expires_in, buffer with
  | JsInt e, JsInt b => JsInt (now + (e - b) * 1000)
  | _, _ => JsNaN
  end.

Definition expirationTtl (expires_in buffer : jsint) : option Q :=
  match expires_in, buffer with
  | JsInt e, JsInt b => Some (inject_Z e - inject_Z b / 2)%Q
  | _, _ => None
  end.

Inductive event : Type :=
| CacheGet (key : string)
| CachePut (key : string) (value : cachetext) (ttl : option Q)
| OauthPost (clientId clientSecret : string).

(** The readings of the clock and the replies of the OAuth endpoint by the
    number of earlier calls, the keys whose read is rejected and the writes
    that are rejected. *)
Record oracle : Type := {
  clock : nat -> Z;
  cache_read_error : string -> option string;
  cache_write_error : string -> option Q -> option string;
  oauth : nat -> oauth_reply
}.

Record world : Type := {
  cache : gmap string cachetext;
  clock_reads : nat;
  oauth_calls : nat;
  trace : list event
}.

Definition M (A : Type) : Type := oracle -> world -> outcome A * world.

Definition ret {A : Type} (a : A) : M A := fun _ w => (Returned a, w).

Definition bind {A B : Type} (c : M A) (k : A -> M B) : M B :=
  fun o w =>
    match c o w with
    | (Returned a, w') => k a o w'
    | (Thrown e, w') => (Thrown e, w')
    end.

Definition try_catch {A : Type} (c : M A) (handler : string -> M A) : M A :=
  fun o w =>
    match c o w with
    | (Returned a, w') => (Returned a, w')
    | (Thrown e, w') => handler e o w'
    end.

Definition lift {A : Type} (r : outcome A) : M A := fun _ w => (r, w).

Declare Scope auth_scope.
Delimit Scope auth_scope with auth.
Notation "x <- c ;; k" := (bind c (fun x => k))
  (at level 100, c at next level, k at level 200, right associativity) : auth_scope.
Notation "c ;; k" := (bind c (fun _ => k))
  (at level 100, k at level 200, right associativity) : auth_scope.
Local Open Scope auth_scope.

Definition record_event (e : event) (w : world) : world :=
  {| cache := cache w; clock_reads := clock_reads w;
     oauth_calls := oauth_calls w; trace := trace w ++ [e] |}.

Definition Date_now : M Z :=
  fun o w =>
    (Returned (clock o (clock_reads w)),
     {| cache := cache w; clock_reads := S (clock_reads w);
        oauth_calls := oauth_calls w; trace := trace w |}).

(** [tokenCacheKV.get] and [.put]; a rejected write leaves the store as it
    is. *)
Definition cache_get (key : string) : M (option cachetext) :=
  fun o w =>
    match cache_read_error o key with
    | Some e => (Thrown e, record_event (CacheGet key) w)
    | None => (Returned (cache w !! key), record_event (CacheGet key) w)
    end.

Definition cache_put (key : string) (value : cachetext) (ttl : option Q) : M unit :=
  fun o w =>
    match cache_write_error o key ttl with
    | Some e => (Thrown e, record_event (CachePut key value ttl) w)
    | None =>
        (Returned tt,
         {| cache := <[key := value]> (cache w); clock_reads := clock_reads w;
            oauth_calls := oauth_calls w;
            trace := trace w ++ [CachePut key value ttl] |})
    end.

Definition fetchNewTailscaleAccessToken (clientId clientSecret : string)
    : M TokenResponse :=
  fun o w =>
    let w' := {| cache := cache w; clock_reads := clock_reads w;
                 oauth_calls := S (oauth_calls w);
                 trace := trace w ++ [OauthPost clientId clientSecret] |} in
    match oauth o (oauth_calls w) with
    | OauthRejects err => (Thrown err, w')
    | OauthNotOk status errorText =>
        (Thrown ("Tailscale OAuth Error: " +:+ show status +:+ " - " +:+ errorText), w')
    | OauthBadJson err => (Thrown err, w')
    | OauthData tokenData => (Returned tokenData, w')
    end.

(** [AccessTokenConfig]; the namespace [tokenCacheKV] is the [cache] of the
    world. *)
Record AccessTokenConfig : Type := {
  tsOauthClientId : string;
  tsOauthClientSecret : string;
  tokenKVKey : string;
  tokenExpiryBufferSeconds : jsint
}.

(** The first [try] block: the token it returns from the function with,
    or [None] when control leaves the block, by its end or by its [catch]. *)
Definition cached_token (config : AccessTokenConfig) : M (option string) :=
  try_catch
    (cachedDataJson <- cache_get (tokenKVKey config) ;;
     match cachedDataJson with
     | Some t =>
         if truthy_text t then
           cachedData <- lift (JSON_parse t) ;;
           if truthy_str (accessToken cachedData) && truthy_jsint (expiresAt cachedData)
           then
             now <- Date_now ;;
             if lt now (expiresAt cachedData) then ret (Some (accessToken cachedData))
             else ret None
           else ret None
         else ret None
     | None => ret None
     end)
    (fun _ => ret None).

Definition getTailscaleAccessToken (config : AccessTokenConfig) : M string :=
  cached <- cached_token config ;;
  match cached with
  | Some token => ret token
  | None =>
      newTokenData <- fetchNewTailscaleAccessToken (tsOauthClientId config)
                        (tsOauthClientSecret config) ;;
      now <- Date_now ;;
      let expiresAt :=
        expiry now (expires_in newTokenData) (tokenExpiryBufferSeconds config) in
      let dataToCache :=
        {| accessToken := access_token newTokenData; expiresAt := expiresAt |} in
      try_catch
        (cache_put (tokenKVKey config) (JSON_stringify dataToCache)
           (expirationTtl (expires_in newTokenData) (tokenExpiryBufferSeconds config)))
        (fun _ => ret tt) ;;
      ret (access_token newTokenData)
  end.

(** The verdict of the first [try] block as a function of the store and of
    the clock: the stored token when its record is complete and not yet
    expired. *)
Definition valid_cached_token (config : AccessTokenConfig) (o : oracle) (w : world)
    : option string :=
  match cache_read_error o (tokenKVKey config), cache w !! tokenKVKey config with
  | None, Some (TokenText a (JsInt e)) =>
      if truthy_str a && negb (e =? 0) && (clock o (clock_reads w) <? e)
      then Some a else None
  | _, _ => None
  end.

Close Scope auth_scope.

End Auth.

(** The token cache of the examples. *)
Definition auth_config : Auth.AccessTokenConfig :=
  {| Auth.tsOauthClientId := "cid"; Auth.tsOauthClientSecret := "cs";
     Auth.tokenKVKey := "tailscale_oauth_token";
     Auth.tokenExpiryBufferSeconds := JsInt 300 |}.

Definition auth_world (store : gmap string Auth.cachetext) : Auth.world :=
  {| Auth.cache := store; Auth.clock_reads := 0; Auth.oauth_calls := 0; Auth.trace := [] |}.

(** An OAuth endpoint that issues [fresh] for an hour, over a token cache
    that accepts reads and writes. *)
Definition issuing_oracle (now : Z) : Auth.oracle :=
  {| Auth.clock := fun _ => now;
     Auth.cache_read_error := fun _ => None;
     Auth.cache_write_error := fun _ _ => None;
     Auth.oauth := fun _ => Auth.OauthData {| Auth.access_token := "fresh";
                                               Auth.expires_in := JsInt 3600 |} |}.

(** The same endpoint over a token cache that rejects every read and every
    write. *)
Definition broken_cache_oracle : Auth.oracle :=
  {| Auth.clock := fun _ => 1000;
     Auth.cache_read_error := fun _ => Some "KV GET failed: 503";
     Auth.cache_write_error := fun _ _ => Some "KV PUT failed: 503";
     Auth.oauth := fun _ => Auth.OauthData {| Auth.access_token := "fresh";
                                               Auth.expires_in := JsInt 3600 |} |}.

(** An OAuth endpoint that refuses the client. *)
Definition refusing_oracle : Auth.oracle :=
  {| Auth.clock := fun _ => 1000;
     Auth.cache_read_error := fun _ => None;
     Auth.cache_write_error := fun _ _ => None;
     Auth.oauth := fun _ => Auth.OauthNotOk 401 "invalid_client" |}.

(** ** Shapes of text *)



(** ** Further surroundings of the examples *)

(** A Tailscale API that refuses the device query. *)
Definition failing_api_oracle : oracle :=
  {| clock := fun _ => 1000;
     telegram_net := fun _ => delivered;
     kv_read_error := fun _ => None;
     access_token := Returned "token";
     tailscale_api := ApiNotOk 403 "forbidden" |}.

(** A device whose [lastSeen] is no date, listed after a dated one. *)
Definition undated_node : ApiDevice :=
  {| api_id := "c"; api_name := "c.tail1234.ts.net"; api_hostname := "c";
     api_addresses := None; api_lastSeen := ""; lastSeenTime := None;
     api_os := "linux"; api_tags := None |}.

Definition undated_oracle : oracle :=
  {| clock := fun _ => 6000000;
     telegram_net := fun _ => delivered;
     kv_read_error := fun _ => None;
     access_token := Returned "token";
     tailscale_api := ApiData (Some [api_node "a"; undated_node]) |}.

(** A status namespace whose reads are rejected. *)
Definition unreadable_oracle : oracle :=
  {| clock := fun _ => 1000;
     telegram_net := fun _ => delivered;
     kv_read_error := fun _ => Some "KV GET failed: 503";
     access_token := Returned "token";
     tailscale_api := ApiData None |}.

(** A closed side condition, by evaluation. *)
Ltac by_computation := vm_compute; first [reflexivity | discriminate | lia].

(** * Properties *)

(** ** Numbers *)

Lemma minutes_of_frac (ms : Z) : minutes_of ms = (ms * 1 # 60000)%Q.
Proof. reflexivity. Qed.

Lemma ge_minutes (ms z : Z) :
  Js.ge (minutes_of ms) (JsInt z) = (z * 60000 <=? ms).
Proof.
  rewrite minutes_of_frac. unfold Js.ge, Qle_bool, inject_Z. cbn [Qnum Qden].
  now rewrite !Z.mul_1_r.
Qed.

Lemma le_minutes (ms z : Z) :
  Js.le (minutes_of ms) (JsInt z) = (ms <=? z * 60000).
Proof.
  rewrite minutes_of_frac. unfold Js.le, Qle_bool, inject_Z. cbn [Qnum Qden].
  now rewrite !Z.mul_1_r.
Qed.

(** ** The loop body in terms of the decision *)

Lemma process_node_skipped (config : AppConfig) (node : TailscaleDevice)
    (o : oracle) (w : world) :
  skipped config node = true -> process_node config node o w = (Returned tt, w).
Proof. intros H. unfold process_node. now rewrite H. Qed.

Lemma process_node_run (config : AppConfig) (node : TailscaleDevice)
    (o : oracle) (w : world) (prev : StoredNodeState) :
  skipped config node = false ->
  kv_read_error o (kvKey node) = None ->
  previous_state (kv w !! kvKey node) = Returned prev ->
  process_node config node o w =
  (kv_get (kvKey node) ;; Date_now ;;
   carry_out config node
     (reconcile prev node (clock o (clock_reads w)) (reminderIntervalMinutes config))) o w.
Proof.
  intros Hskip Hread Hprev.
  unfold process_node, carry_out, reconcile. rewrite Hskip.
  unfold bind, kv_get, lift, Date_now, ret. rewrite Hread. cbv beta iota. rewrite Hprev.
  cbv beta iota zeta. unfold record_event. cbn [clock_reads kv telegram_calls trace].
  repeat first
    [ progress cbn [negb andb message newKVData needsKVWrite]
    | progress cbv beta iota
    | match goal with
      | |- context [notify ?c ?t ?o ?w] => destruct (notify c t o w) as [[[] | ?] ?]
      | |- context [if ?b then _ else _] =>
          lazymatch b with
          | true => fail
          | false => fail
          | _ => destruct b
          end
      end ];
    reflexivity.
Qed.

(** A failed read or parse ends the loop body at once. *)
Lemma process_node_throws (config : AppConfig) (node : TailscaleDevice)
    (o : oracle) (w : world) (e : string) :
  skipped config node = false ->
  kv_read_error o (kvKey node) = Some e \/
  (kv_read_error o (kvKey node) = None /\
   previous_state (kv w !! kvKey node) = Thrown e) ->
  process_node config node o w = (Thrown e, record_event (KvGet (kvKey node)) w).
Proof.
  intros Hskip H. unfold process_node. rewrite Hskip.
  unfold bind, kv_get, lift.
  destruct H as [H | [H Hp]]; rewrite H; [reflexivity |].
  cbv beta iota. now rewrite Hp.
Qed.

(** ** The notifier *)

Lemma puts_app (t1 t2 : list event) : puts (t1 ++ t2) = (puts t1 ++ puts t2)%list.
Proof. apply omap_app. Qed.

Lemma posts_app (t1 t2 : list event) : posts (t1 ++ t2) = (posts t1 ++ posts t2)%list.
Proof. apply omap_app. Qed.

Lemma gets_app (t1 t2 : list event) : gets (t1 ++ t2) = (gets t1 ++ gets t2)%list.
Proof. apply omap_app. Qed.

Lemma sendTelegramNotification_returns (messageText botToken chatId : string)
    (o : oracle) (w : world) :
  exists (r : Telegram.result) (w' : world),
    Telegram.sendTelegramNotification messageText botToken chatId o w = (Returned r, w') /\
    (Telegram.success r = false -> exists e, Telegram.error r = Some e) /\
    (Telegram.success r = true -> Telegram.error r = None) /\
    same_store w w' /\
    posts (trace w') =
      (posts (trace w) ++
       if truthy_str botToken && truthy_str chatId then [messageText] else [])%list.
Proof.
  unfold Telegram.sendTelegramNotification, same_store.
  destruct (truthy_str botToken); cbn [negb orb andb].
  2:{ eexists _, w. cbn. rewrite app_nil_r. repeat split; eauto; discriminate. }
  destruct (truthy_str chatId); cbn [negb orb andb].
  2:{ eexists _, w. cbn. rewrite app_nil_r. repeat split; eauto; discriminate. }
  unfold try_catch, bind, Telegram.post.
  destruct (telegram_net o (telegram_calls w)) as [fetchErr | [] description error_code];
    cbn; eexists _, _; (split; [reflexivity |]); cbn;
    rewrite ?puts_app, ?posts_app, ?gets_app; cbn; rewrite ?app_nil_r;
    repeat split; eauto; discriminate.
Qed.

Lemma notify_returns (config : AppConfig) (text : string) (o : oracle) (w : world) :
  exists w' : world,
    notify config text o w = (Returned tt, w') /\
    same_store w w' /\
    posts (trace w') =
      (posts (trace w) ++
       if truthy_str (telegramBotToken config) && truthy_str (telegramChatId config)
       then [text] else [])%list.
Proof.
  destruct (sendTelegramNotification_returns text (telegramBotToken config)
              (telegramChatId config) o w) as (r & w' & Hrun & _ & _ & Hsame & Hposts).
  exists w'. unfold notify, bind. rewrite Hrun. auto.
Qed.

Lemma ensureRequiredEnv_ok (env : gmap string envval) (requiredKeys : list string) :
  ensureRequiredEnv env requiredKeys = Returned tt ->
  forall key, In key requiredKeys -> truthy (env !! key) = true.
Proof.
  unfold ensureRequiredEnv. intros H key Hin.
  destruct (truthy (env !! key)) eqn:Hkey; [reflexivity |].
  assert (Hmissing : In key (List.filter (fun key => negb (truthy (env !! key)))
                               requiredKeys)).
  { apply filter_In. now rewrite Hkey. }
  destruct (List.filter _ requiredKeys); [contradiction | discriminate].
Qed.

(** A configuration that [loadAppConfig] accepts holds both Telegram secrets. *)
Lemma loadAppConfig_secrets (env : gmap string envval) (config : AppConfig) :
  loadAppConfig env = Returned config ->
  truthy_str (telegramBotToken config) = true /\
  truthy_str (telegramChatId config) = true.
Proof.
  assert (Htext : forall v, truthy v = true -> truthy_str (text_of v) = true).
  { intros [[s |] |]; cbn; auto. }
  unfold loadAppConfig.
  destruct (ensureRequiredEnv env ALL_REQUIRED_KEYS) as [[] | e] eqn:Hok; [| discriminate].
  intros [= <-]. cbn [telegramBotToken telegramChatId].
  split; apply Htext, (ensureRequiredEnv_ok _ _ Hok); unfold ALL_REQUIRED_KEYS;
    cbn [In]; auto 20.
Qed.

(** ** The effects of the loop body *)

Lemma process_node_effects_gen (config : AppConfig)
    (node : TailscaleDevice) (o : oracle) (w : world) (prev : StoredNodeState) :
  skipped config node = false ->
  kv_read_error o (kvKey node) = None ->
  previous_state (kv w !! kvKey node) = Returned prev ->
  let d := decision_in config node o w prev in
  exists w' : world,
    process_node config node o w = (Returned tt, w') /\
    kv w' = store_after (kvKey node) d (kv w) /\
    clock_reads w' = S (clock_reads w) /\
    gets (trace w') = (gets (trace w) ++ [kvKey node])%list /\
    posts (trace w') = (posts (trace w) ++ sent config (message d))%list /\
    puts (trace w') =
      (puts (trace w) ++
       match persisted d with Some r => [(kvKey node, RecordText r)] | None => [] end)%list.
Proof.
  intros Hskip Hread Hprev d.
  rewrite (process_node_run _ _ _ _ _ Hskip Hread Hprev).
  fold (decision_in config node o w prev). fold d.
  unfold bind at 1. unfold kv_get. rewrite Hread.
  unfold bind at 1. unfold Date_now. cbn [clock_reads record_event kv telegram_calls trace].
  set (w1 := {| kv := kv w; clock_reads := S (clock_reads w);
                telegram_calls := telegram_calls w;
                trace := (trace w ++ [KvGet (kvKey node)])%list |}).
  assert (Hw1 : kv w1 = kv w /\ clock_reads w1 = S (clock_reads w) /\
                gets (trace w1) = (gets (trace w) ++ [kvKey node])%list /\
                posts (trace w1) = posts (trace w) /\ puts (trace w1) = puts (trace w)).
  { subst w1; cbn. rewrite gets_app, posts_app, puts_app. cbn.
    now rewrite !app_nil_r. }
  destruct Hw1 as (Hkv1 & Hclk1 & Hget1 & Hpost1 & Hput1).
  clearbody w1. unfold carry_out, store_after, persisted.
  assert (Hsend : exists w2, (match message d with
                              | Some text => notify config text
                              | None => ret tt
                              end) o w1 = (Returned tt, w2) /\
                  kv w2 = kv w1 /\ clock_reads w2 = clock_reads w1 /\
                  puts (trace w2) = puts (trace w1) /\ gets (trace w2) = gets (trace w1) /\
                  posts (trace w2) = (posts (trace w1) ++ sent config (message d))%list).
  { unfold sent. destruct (message d) as [text |].
    - destruct (notify_returns config text o w1) as (w2 & Hrun & (? & ? & ? & ?) & Hposts).
      exists w2. auto 10.
    - exists w1. rewrite app_nil_r. unfold ret. auto 10. }
  destruct Hsend as (w2 & Hrun & Hkv2 & Hclk2 & Hput2 & Hget2 & Hpost2).
  unfold bind. rewrite Hrun.
  destruct (needsKVWrite d).
  - eexists. split; [reflexivity |]. cbn. rewrite puts_app, gets_app, posts_app. cbn.
    rewrite !app_nil_r. unfold JSON_stringify. repeat split; congruence.
  - exists w2. rewrite app_nil_r. unfold ret. repeat split; congruence.
Qed.

Lemma process_node_effects (env : gmap string envval) (config : AppConfig)
    (node : TailscaleDevice) (o : oracle) (w : world) (prev : StoredNodeState) :
  loadAppConfig env = Returned config ->
  skipped config node = false ->
  kv_read_error o (kvKey node) = None ->
  previous_state (kv w !! kvKey node) = Returned prev ->
  let d := decision_in config node o w prev in
  exists w' : world,
    process_node config node o w = (Returned tt, w') /\
    kv w' = store_after (kvKey node) d (kv w) /\
    clock_reads w' = S (clock_reads w) /\
    gets (trace w') = (gets (trace w) ++ [kvKey node])%list /\
    posts (trace w') =
      (posts (trace w) ++ match message d with Some text => [text] | None => [] end)%list /\
    puts (trace w') =
      (puts (trace w) ++
       match persisted d with Some r => [(kvKey node, RecordText r)] | None => [] end)%list.
Proof.
  intros Hload Hskip Hread Hprev d.
  destruct (process_node_effects_gen config node o w prev Hskip Hread Hprev)
    as (w' & Hrun & Hkv & Hclk & Hgets & Hposts & Hputs).
  destruct (loadAppConfig_secrets _ _ Hload) as [Hbot Hchat].
  unfold sent in Hposts. rewrite Hbot, Hchat in Hposts.
  exists w'. auto 10.
Qed.

(** ** The decision, branch by branch *)

Lemma reconcile_goes_offline (prev : StoredNodeState) (node : TailscaleDevice)
    (now : Z) (interval : jsint) :
  isOnline node = false ->
  is_offline (state prev) = false ->
  reconcile prev node now interval =
  {| message := Some (offline_message (escapeMarkdownV2 (shortNodeName node))
                        (escapeMarkdownV2 (lastSeen node)) (minutesSinceLastSeen node));
     newKVData := {| state := Some OFFLINE; alertTs := now; firstDownTs := now |};
     needsKVWrite := true |}.
Proof. intros Hoff Hst. unfold reconcile. now rewrite Hoff, Hst. Qed.

Lemma reconcile_still_offline (prev : StoredNodeState) (node : TailscaleDevice)
    (now : Z) (interval : jsint) :
  isOnline node = false ->
  is_offline (state prev) = true ->
  reconcile prev node now interval =
  if Js.ge (minutes_of (now - alertTs prev)) interval then
    {| message :=
         Some (still_offline_message (escapeMarkdownV2 (shortNodeName node))
                 (escapeMarkdownV2 (lastSeen node)) (minutesSinceLastSeen node)
                 (Math_round (minutes_of (now - down_since (firstDownTs prev) now))));
       newKVData := {| state := Some OFFLINE; alertTs := now;
                       firstDownTs := down_since (firstDownTs prev) now |};
       needsKVWrite := true |}
  else {| message := None; newKVData := prev; needsKVWrite := false |}.
Proof.
  intros Hoff Hst. unfold reconcile, down_since, truthy_num. rewrite Hoff, Hst.
  cbn [negb andb]. now destruct (firstDownTs prev =? 0).
Qed.

Lemma reconcile_recovers (prev : StoredNodeState) (node : TailscaleDevice)
    (now : Z) (interval : jsint) :
  isOnline node = true ->
  is_offline (state prev) = true ->
  exists text,
    reconcile prev node now interval =
    {| message := Some text;
       newKVData := {| state := Some ONLINE; alertTs := 0; firstDownTs := 0 |};
       needsKVWrite := true |}.
Proof. intros Hon Hst. unfold reconcile. rewrite Hon, Hst. cbn [negb]. eauto. Qed.

Lemma reconcile_stays_online (prev : StoredNodeState) (node : TailscaleDevice)
    (now : Z) (interval : jsint) :
  isOnline node = true ->
  is_offline (state prev) = false ->
  reconcile prev node now interval =
  if is_null (state prev) then
    {| message := None;
       newKVData := {| state := Some ONLINE; alertTs := 0; firstDownTs := 0 |};
       needsKVWrite := true |}
  else {| message := None; newKVData := prev; needsKVWrite := false |}.
Proof. intros Hon Hst. unfold reconcile. now rewrite Hon, Hst. Qed.

Lemma is_offline_true (s : option node_state) : is_offline s = true <-> s = Some OFFLINE.
Proof. destruct s as [[] |]; cbn; split; congruence. Qed.

Lemma is_offline_false (s : option node_state) : is_offline s = false <-> s <> Some OFFLINE.
Proof. destruct s as [[] |]; cbn; split; congruence. Qed.

(** The effects of the loop body on a node that is down and was down. *)
Lemma process_node_still_offline (env : gmap string envval) (config : AppConfig)
    (node : TailscaleDevice) (o : oracle) (w : world) (A F R : Z) :
  loadAppConfig env = Returned config ->
  reminderIntervalMinutes config = JsInt R ->
  skipped config node = false ->
  kv_read_error o (kvKey node) = None ->
  kv w !! kvKey node =
    Some (RecordText {| state := Some OFFLINE; alertTs := A; firstDownTs := F |}) ->
  isOnline node = false ->
  let now := clock o (clock_reads w) in
  let since := down_since F now in
  let reminder :=
    still_offline_message (escapeMarkdownV2 (shortNodeName node))
      (escapeMarkdownV2 (lastSeen node)) (minutesSinceLastSeen node)
      (Math_round (minutes_of (now - since))) in
  let record := {| state := Some OFFLINE; alertTs := now; firstDownTs := since |} in
  exists w' : world,
    process_node config node o w = (Returned tt, w') /\
    (R * 60000 <= now - A ->
       posts (trace w') = (posts (trace w) ++ [reminder])%list /\
       puts (trace w') = (puts (trace w) ++ [(kvKey node, RecordText record)])%list /\
       kv w' = <[kvKey node := RecordText record]> (kv w)) /\
    (now - A < R * 60000 ->
       posts (trace w') = posts (trace w) /\
       puts (trace w') = puts (trace w) /\
       kv w' = kv w).
Proof.
  intros Hload HR Hskip Hread Hkv Hoff now since reminder record.
  destruct (process_node_effects env config node o w
              {| state := Some OFFLINE; alertTs := A; firstDownTs := F |}
              Hload Hskip Hread) as (w' & Hrun & Hstore & _ & _ & Hposts & Hputs).
  { now rewrite Hkv. }
  exists w'. split; [exact Hrun |].
  unfold decision_in in *. fold now in Hstore, Hposts, Hputs.
  rewrite HR, (reconcile_still_offline
                {| state := Some OFFLINE; alertTs := A; firstDownTs := F |}
                node now (JsInt R) Hoff eq_refl), ge_minutes
    in Hstore, Hposts, Hputs.
  cbn [alertTs firstDownTs] in Hstore, Hposts, Hputs.
  unfold store_after, persisted in Hstore, Hputs.
  split; intros Hcmp.
  - assert (Hb : (R * 60000 <=? now - A) = true) by lia.
    rewrite Hb in Hstore, Hposts, Hputs. auto.
  - assert (Hb : (R * 60000 <=? now - A) = false) by lia.
    rewrite Hb in Hstore, Hposts, Hputs. cbn in Hposts, Hputs.
    rewrite app_nil_r in Hposts, Hputs. auto.
Qed.

(** ** Reminders (C1, C5) *)

(** C1, as amended.  A node is seen offline at time [now] and its stored
    record is [{state: OFFLINE, alertTs: A, firstDownTs: F}].  The loop
    body sends a reminder exactly when [now - A] has reached the reminder
    interval ([R] minutes, [R * 60000] milliseconds).  When it does, the
    record it writes has [alertTs = now], and [firstDownTs = F] if [F] is
    not zero, [firstDownTs = now] if [F] is zero.  When it does not, nothing
    is sent, nothing is written and the store is unchanged. *)
Theorem reminder_iff_interval_elapsed (env : gmap string envval) (config : AppConfig)
    (node : TailscaleDevice) (o : oracle) (w : world) (A F R : Z) :
  loadAppConfig env = Returned config ->
  reminderIntervalMinutes config = JsInt R ->
  skipped config node = false ->
  kv_read_error o (kvKey node) = None ->
  kv w !! kvKey node =
    Some (RecordText {| state := Some OFFLINE; alertTs := A; firstDownTs := F |}) ->
  isOnline node = false ->
  let now := clock o (clock_reads w) in
  let since := if F =? 0 then now else F in
  let reminder :=
    still_offline_message (escapeMarkdownV2 (shortNodeName node))
      (escapeMarkdownV2 (lastSeen node)) (minutesSinceLastSeen node)
      (Math_round (minutes_of (now - since))) in
  let record := {| state := Some OFFLINE; alertTs := now; firstDownTs := since |} in
  exists w' : world,
    process_node config node o w = (Returned tt, w') /\
    (R * 60000 <= now - A ->
       posts (trace w') = (posts (trace w) ++ [reminder])%list /\
       puts (trace w') = (puts (trace w) ++ [(kvKey node, RecordText record)])%list /\
       kv w' = <[kvKey node := RecordText record]> (kv w)) /\
    (now - A < R * 60000 ->
       posts (trace w') = posts (trace w) /\
       puts (trace w') = puts (trace w) /\
       kv w' = kv w).
Proof. exact (process_node_still_offline env config node o w A F R). Qed.

Lemma reminder_iff_interval_elapsed_witness :
  exists w' : world,
    process_node (sample_config "240" "tag:critical") (pi_node false)
      (sample_oracle 14401000 delivered)
      (sample_world (pi_store {| state := Some OFFLINE; alertTs := 1000;
                                 firstDownTs := 1000 |}))
    = (Returned tt, w') /\
    kv w' !! "node:pi:pi" =
      Some (RecordText {| state := Some OFFLINE; alertTs := 14401000;
                          firstDownTs := 1000 |}).
Proof.
  destruct (reminder_iff_interval_elapsed (sample_env "240" "tag:critical")
              (sample_config "240" "tag:critical") (pi_node false)
              (sample_oracle 14401000 delivered)
              (sample_world (pi_store {| state := Some OFFLINE; alertTs := 1000;
                                         firstDownTs := 1000 |}))
              1000 1000 240)
    as (w' & Hrun & Hfires & _); [by_computation .. |].
  exists w'. split; [exact Hrun |].
  destruct Hfires as (_ & _ & Hkv); [vm_compute; discriminate |].
  rewrite Hkv. apply lookup_insert_eq.
Defined.

(** C1, the counterexample.  The stored record is
    [{state: OFFLINE, alertTs: 1000, firstDownTs: 0}] and the node is seen
    offline at [now = 14401000] with an interval of 240 minutes: the
    reminder is sent, and the record written has [firstDownTs = 14401000],
    not the stored [0]. *)
Lemma reminder_replaces_zero_firstDownTs :
  let w' := snd (process_node (sample_config "240" "tag:critical") (pi_node false)
                   (sample_oracle 14401000 delivered)
                   (sample_world (pi_store {| state := Some OFFLINE; alertTs := 1000;
                                              firstDownTs := 0 |}))) in
  length (posts (trace w')) = 1%nat /\
  kv w' !! "node:pi:pi" =
    Some (RecordText {| state := Some OFFLINE; alertTs := 14401000;
                        firstDownTs := 14401000 |}).
Proof. vm_compute. split; reflexivity. Qed.

(** C5, as amended.  The stored record is
    [{state: OFFLINE, alertTs: 1000, firstDownTs: 1000}], the interval is
    240 minutes and the node is seen offline at
    [now = 1000 + 14400000 = 14401000]: the loop body sends the reminder
    (an outage of 240 minutes) and writes
    [{state: OFFLINE, alertTs: 14401000, firstDownTs: 1000}]. *)
Theorem scenario_reminder (env : gmap string envval) (config : AppConfig)
    (node : TailscaleDevice) (o : oracle) (w : world) :
  loadAppConfig env = Returned config ->
  reminderIntervalMinutes config = JsInt 240 ->
  skipped config node = false ->
  kv_read_error o (kvKey node) = None ->
  kv w !! kvKey node =
    Some (RecordText {| state := Some OFFLINE; alertTs := 1000; firstDownTs := 1000 |}) ->
  isOnline node = false ->
  clock o (clock_reads w) = 1000 + 240 * 60000 ->
  let record := {| state := Some OFFLINE; alertTs := 14401000; firstDownTs := 1000 |} in
  exists w' : world,
    process_node config node o w = (Returned tt, w') /\
    posts (trace w') =
      (posts (trace w) ++
       [still_offline_message (escapeMarkdownV2 (shortNodeName node))
          (escapeMarkdownV2 (lastSeen node)) (minutesSinceLastSeen node) 240])%list /\
    puts (trace w') = (puts (trace w) ++ [(kvKey node, RecordText record)])%list /\
    kv w' = <[kvKey node := RecordText record]> (kv w).
Proof.
  intros Hload HR Hskip Hread Hkv Hoff Hnow record.
  destruct (process_node_still_offline env config node o w 1000 1000 240
              Hload HR Hskip Hread Hkv Hoff) as (w' & Hrun & Hfires & _).
  exists w'. split; [exact Hrun |].
  rewrite Hnow in Hfires. apply Hfires. vm_compute. discriminate.
Qed.

Lemma scenario_reminder_witness :
  exists w' : world,
    process_node (sample_config "240" "tag:critical") (pi_node false)
      (sample_oracle 14401000 delivered)
      (sample_world (pi_store {| state := Some OFFLINE; alertTs := 1000;
                                 firstDownTs := 1000 |}))
    = (Returned tt, w') /\
    puts (trace w') =
      [("node:pi:pi", RecordText {| state := Some OFFLINE; alertTs := 14401000;
                                    firstDownTs := 1000 |})].
Proof.
  destruct (scenario_reminder (sample_env "240" "tag:critical")
              (sample_config "240" "tag:critical") (pi_node false)
              (sample_oracle 14401000 delivered)
              (sample_world (pi_store {| state := Some OFFLINE; alertTs := 1000;
                                         firstDownTs := 1000 |})))
    as (w' & Hrun & _ & Hputs & _); [by_computation .. |].
  exists w'. split; [exact Hrun | exact Hputs].
Defined.

(** C5, the counterexample.  In the scenario the record written has
    [alertTs = 14401000], the [now] of the pass; it is not the record
    [{OFFLINE, 15400000, 1000}]. *)
Lemma scenario_reminder_alertTs_is_now :
  let w' := snd (process_node (sample_config "240" "tag:critical") (pi_node false)
                   (sample_oracle (1000 + 14400000) delivered)
                   (sample_world (pi_store {| state := Some OFFLINE; alertTs := 1000;
                                              firstDownTs := 1000 |}))) in
  kv w' !! "node:pi:pi" =
    Some (RecordText {| state := Some OFFLINE; alertTs := 14401000; firstDownTs := 1000 |}) /\
  kv w' !! "node:pi:pi" <>
    Some (RecordText {| state := Some OFFLINE; alertTs := 15400000; firstDownTs := 1000 |}).
Proof. vm_compute. split; [reflexivity | discriminate]. Qed.

(** ** The initial alert (C2) *)

(** C2.  A node is seen offline and its prior record (the stored one, or
    [{state: null, alertTs: 0, firstDownTs: 0}] when nothing is stored) has
    a state that is not OFFLINE.  With [now] the reading of the clock, the
    loop body decides on the initial alert, sends it and writes
    [{state: OFFLINE, alertTs: now, firstDownTs: now}] under the node's
    key. *)
Theorem initial_down_alert (env : gmap string envval) (config : AppConfig)
    (node : TailscaleDevice) (o : oracle) (w : world) (prev : StoredNodeState) :
  loadAppConfig env = Returned config ->
  skipped config node = false ->
  kv_read_error o (kvKey node) = None ->
  previous_state (kv w !! kvKey node) = Returned prev ->
  isOnline node = false ->
  state prev <> Some OFFLINE ->
  let now := clock o (clock_reads w) in
  let alert :=
    offline_message (escapeMarkdownV2 (shortNodeName node))
      (escapeMarkdownV2 (lastSeen node)) (minutesSinceLastSeen node) in
  let record := {| state := Some OFFLINE; alertTs := now; firstDownTs := now |} in
  reconcile prev node now (reminderIntervalMinutes config) =
    {| message := Some alert; newKVData := record; needsKVWrite := true |} /\
  exists w' : world,
    process_node config node o w = (Returned tt, w') /\
    posts (trace w') = (posts (trace w) ++ [alert])%list /\
    puts (trace w') = (puts (trace w) ++ [(kvKey node, RecordText record)])%list /\
    kv w' = <[kvKey node := RecordText record]> (kv w).
Proof.
  intros Hload Hskip Hread Hprev Hoff Hstate now alert record.
  apply is_offline_false in Hstate.
  pose proof (reconcile_goes_offline prev node now (reminderIntervalMinutes config)
                Hoff Hstate) as Hd.
  split; [exact Hd |].
  destruct (process_node_effects env config node o w prev Hload Hskip Hread Hprev)
    as (w' & Hrun & Hstore & _ & _ & Hposts & Hputs).
  unfold decision_in in Hstore, Hposts, Hputs. fold now in Hstore, Hposts, Hputs.
  rewrite Hd in Hstore, Hposts, Hputs.
  exists w'. auto.
Qed.

(** Scenario 2 of the specification: prior [{ONLINE, 0, 0}], seen offline
    at [now = 1000]. *)
Lemma initial_down_alert_witness :
  exists w' : world,
    process_node (sample_config "240" "tag:critical") (pi_node false)
      (sample_oracle 1000 delivered)
      (sample_world (pi_store {| state := Some ONLINE; alertTs := 0; firstDownTs := 0 |}))
    = (Returned tt, w') /\
    puts (trace w') =
      [("node:pi:pi", RecordText {| state := Some OFFLINE; alertTs := 1000;
                                    firstDownTs := 1000 |})].
Proof.
  destruct (initial_down_alert (sample_env "240" "tag:critical")
              (sample_config "240" "tag:critical") (pi_node false)
              (sample_oracle 1000 delivered)
              (sample_world (pi_store {| state := Some ONLINE; alertTs := 0;
                                         firstDownTs := 0 |}))
              {| state := Some ONLINE; alertTs := 0; firstDownTs := 0 |})
    as (_ & w' & Hrun & _ & Hputs & _); [by_computation .. |].
  exists w'. split; [exact Hrun | exact Hputs].
Defined.

(** ** The records written (C3) *)

Lemma reconcile_cases (prev : StoredNodeState) (node : TailscaleDevice)
    (now : Z) (interval : jsint) :
  let d := reconcile prev node now interval in
  (needsKVWrite d = false /\ newKVData d = prev /\ message d = None) \/
  (needsKVWrite d = true /\
   newKVData d = {| state := Some ONLINE; alertTs := 0; firstDownTs := 0 |} /\
   isOnline node = true) \/
  (needsKVWrite d = true /\
   newKVData d = {| state := Some OFFLINE; alertTs := now; firstDownTs := now |} /\
   isOnline node = false /\ state prev <> Some OFFLINE) \/
  (needsKVWrite d = true /\
   newKVData d = {| state := Some OFFLINE; alertTs := now;
                    firstDownTs := down_since (firstDownTs prev) now |} /\
   isOnline node = false /\ state prev = Some OFFLINE).
Proof.
  destruct (isOnline node) eqn:Hon; destruct (is_offline (state prev)) eqn:Hst; cbn zeta.
  - destruct (reconcile_recovers prev node now interval Hon Hst) as [text ->]. auto.
  - rewrite (reconcile_stays_online prev node now interval Hon Hst).
    destruct (is_null (state prev)); auto.
  - rewrite (reconcile_still_offline prev node now interval Hon Hst).
    apply is_offline_true in Hst.
    destruct (Js.ge _ interval); auto 10.
  - rewrite (reconcile_goes_offline prev node now interval Hon Hst).
    apply is_offline_false in Hst. auto 10.
Qed.

Lemma down_since_nonzero (firstDown now : Z) : 0 < now -> down_since firstDown now <> 0.
Proof. unfold down_since. destruct (Z.eqb_spec firstDown 0); lia. Qed.

Lemma reconcile_writes_well_formed (prev : StoredNodeState) (node : TailscaleDevice)
    (now : Z) (interval : jsint) :
  0 < now ->
  needsKVWrite (reconcile prev node now interval) = true ->
  well_formed (newKVData (reconcile prev node now interval)).
Proof.
  intros Hnow Hw.
  destruct (reconcile_cases prev node now interval)
    as [(Hn & _) | [(_ & -> & _) | [(_ & -> & _) | (_ & -> & _)]]].
  - congruence.
  - split; cbn; [split; [lia | discriminate] | auto].
  - split; cbn; [split; [reflexivity | lia] | discriminate].
  - pose proof (down_since_nonzero (firstDownTs prev) now Hnow).
    split; cbn; [split; [reflexivity | auto] | discriminate].
Qed.

Lemma reconcile_episode_le (prev : StoredNodeState) (node : TailscaleDevice)
    (now : Z) (interval : jsint) :
  0 < now -> episode_le prev (newKVData (reconcile prev node now interval)).
Proof.
  intros Hnow Hprev Hnext.
  destruct (reconcile_cases prev node now interval)
    as [(_ & Hr & _) | [(_ & Hr & _) | [(_ & Hr & _ & Hst) | (_ & Hr & _)]]];
    rewrite Hr in Hnext |- *; cbn in *; try congruence; try lia.
  unfold down_since. destruct (Z.eqb_spec (firstDownTs prev) 0); lia.
Qed.

(** The writes of the loop body, whatever its outcome. *)
Lemma process_node_puts (config : AppConfig) (node : TailscaleDevice)
    (o : oracle) (w w' : world) (res : outcome unit) :
  (forall i, 0 < clock o i) ->
  process_node config node o w = (res, w') ->
  exists new, puts (trace w') = (puts (trace w) ++ new)%list /\ Forall written_ok new.
Proof.
  intros Hclock Hrun.
  destruct (skipped config node) eqn:Hskip.
  { rewrite (process_node_skipped _ _ _ _ Hskip) in Hrun. injection Hrun as <- <-.
    exists []. now rewrite app_nil_r. }
  destruct (kv_read_error o (kvKey node)) as [e |] eqn:Hread.
  { rewrite (process_node_throws _ _ _ _ e Hskip) in Hrun by auto.
    injection Hrun as <- <-. exists []. cbn. rewrite puts_app. now cbn. }
  destruct (previous_state (kv w !! kvKey node)) as [prev | e] eqn:Hprev.
  2:{ rewrite (process_node_throws _ _ _ _ e Hskip) in Hrun by auto.
      injection Hrun as <- <-. exists []. cbn. rewrite puts_app. now cbn. }
  destruct (process_node_effects_gen config node o w prev Hskip Hread Hprev)
    as (w2 & Hrun2 & _ & _ & _ & _ & Hputs).
  rewrite Hrun2 in Hrun. injection Hrun as <- <-.
  eexists. split; [exact Hputs |].
  unfold persisted, decision_in.
  destruct (needsKVWrite _) eqn:Hw; constructor; [| constructor].
  eexists. split; [reflexivity |].
  now apply reconcile_writes_well_formed.
Qed.

Lemma process_devices_puts (config : AppConfig) (devices : list TailscaleDevice)
    (o : oracle) (w w' : world) (res : outcome unit) :
  (forall i, 0 < clock o i) ->
  process_devices config devices o w = (res, w') ->
  exists new, puts (trace w') = (puts (trace w) ++ new)%list /\ Forall written_ok new.
Proof.
  intros Hclock. revert w.
  induction devices as [| node rest IH]; intros w Hrun.
  - injection Hrun as <- <-. exists []. now rewrite app_nil_r.
  - unfold process_devices in Hrun. cbn [for_each] in Hrun. unfold bind in Hrun.
    destruct (process_node config node o w) as [[[] | e] w1] eqn:Hnode.
    + destruct (process_node_puts _ _ _ _ _ _ Hclock Hnode) as (new1 & Hp1 & Hok1).
      destruct (IH w1 Hrun) as (new2 & Hp2 & Hok2).
      exists (new1 ++ new2)%list. rewrite Hp2, Hp1, app_assoc.
      split; [reflexivity | now apply Forall_app].
    + injection Hrun as <- <-. now apply (process_node_puts _ _ _ _ _ _ Hclock Hnode).
Qed.

(** The store before and after the loop body, key by key. *)
Lemma process_node_store (config : AppConfig) (node : TailscaleDevice)
    (o : oracle) (w w' : world) (res : outcome unit)
    (key : string) (prev next : StoredNodeState) :
  (forall i, 0 < clock o i) ->
  process_node config node o w = (res, w') ->
  kv w !! key = Some (RecordText prev) ->
  kv w' !! key = Some (RecordText next) ->
  episode_le prev next.
Proof.
  intros Hclock Hrun Hbefore Hafter.
  assert (Hsame : kv w' = kv w -> episode_le prev next).
  { intros Heq. rewrite Heq, Hbefore in Hafter. injection Hafter as <-.
    intros _ _. lia. }
  destruct (skipped config node) eqn:Hskip.
  { rewrite (process_node_skipped _ _ _ _ Hskip) in Hrun. injection Hrun as <- <-. auto. }
  destruct (kv_read_error o (kvKey node)) as [e |] eqn:Hread.
  { rewrite (process_node_throws _ _ _ _ e Hskip) in Hrun by auto.
    injection Hrun as <- <-. auto. }
  destruct (previous_state (kv w !! kvKey node)) as [stored | e] eqn:Hprev.
  2:{ rewrite (process_node_throws _ _ _ _ e Hskip) in Hrun by auto.
      injection Hrun as <- <-. auto. }
  destruct (process_node_effects_gen config node o w stored Hskip Hread Hprev)
    as (w2 & Hrun2 & Hkv & _).
  rewrite Hrun2 in Hrun. injection Hrun as <- <-.
  unfold store_after, persisted, decision_in in Hkv.
  destruct (needsKVWrite _); [| auto].
  destruct (decide (key = kvKey node)) as [-> | Hne].
  - rewrite Hbefore in Hprev. cbn in Hprev. injection Hprev as <-.
    rewrite Hkv, lookup_insert_eq in Hafter. injection Hafter as <-.
    now apply reconcile_episode_le.
  - rewrite Hkv, lookup_insert_ne in Hafter by auto.
    rewrite Hbefore in Hafter. injection Hafter as <-. intros _ _. lia.
Qed.

Lemma replay_episodes (interval : jsint) (passes : list (TailscaleDevice * Z)) :
  forall prev : StoredNodeState,
    Forall (fun pass => 0 < snd pass) passes ->
    Sorted episode_le (prev :: replay interval prev passes).
Proof.
  induction passes as [| [node now] rest IH]; intros prev Hpos.
  - repeat constructor.
  - inversion Hpos as [| ? ? Hnow Hrest]; subst. cbn [replay snd] in *.
    constructor; [now apply IH |].
    constructor. now apply reconcile_episode_le.
Qed.

(** C3.  With a clock that reads positive epoch milliseconds: every write a
    cycle over a device list issues (also a cycle that ends in an error)
    is a record whose [firstDownTs] is non-zero exactly when its state is
    OFFLINE and whose two timestamps are zero when its state is ONLINE.
    Within one outage [firstDownTs] never decreases: when the record stored
    under a key is OFFLINE before a pass and OFFLINE after it, its
    [firstDownTs] has not gone down, and the same holds for two successive
    records along any series of passes over a node. *)
Theorem written_records_invariant :
  (forall (config : AppConfig) (devices : list TailscaleDevice) (o : oracle)
          (w w' : world) (res : outcome unit),
      (forall i, 0 < clock o i) ->
      process_devices config devices o w = (res, w') ->
      exists new,
        puts (trace w') = (puts (trace w) ++ new)%list /\
        Forall (fun p => exists r, snd p = RecordText r /\
                  (firstDownTs r <> 0 <-> state r = Some OFFLINE) /\
                  (state r = Some ONLINE -> alertTs r = 0 /\ firstDownTs r = 0)) new) /\
  (forall (config : AppConfig) (node : TailscaleDevice) (o : oracle)
          (w w' : world) (res : outcome unit) (key : string)
          (prev next : StoredNodeState),
      (forall i, 0 < clock o i) ->
      process_node config node o w = (res, w') ->
      kv w !! key = Some (RecordText prev) ->
      kv w' !! key = Some (RecordText next) ->
      state prev = Some OFFLINE -> state next = Some OFFLINE ->
      firstDownTs prev <= firstDownTs next) /\
  (forall (interval : jsint) (prev : StoredNodeState) (passes : list (TailscaleDevice * Z)),
      Forall (fun pass => 0 < snd pass) passes ->
      Sorted (fun r r' => state r = Some OFFLINE -> state r' = Some OFFLINE ->
                          firstDownTs r <= firstDownTs r')
        (prev :: replay interval prev passes)).
Proof.
  repeat split.
  - intros config devices o w w' res Hclock Hrun.
    exact (process_devices_puts config devices o w w' res Hclock Hrun).
  - intros config node o w w' res key prev next Hclock Hrun Hbefore Hafter.
    exact (process_node_store config node o w w' res key prev next
             Hclock Hrun Hbefore Hafter).
  - intros interval prev passes Hpos. exact (replay_episodes interval passes prev Hpos).
Qed.

(** A cycle that sees [pi] offline and then online, the reminder of
    Scenario 3 in the store, and three passes over [pi]. *)
Lemma written_records_invariant_witness :
  (exists new,
      puts (trace (snd (process_devices (sample_config "240" "tag:critical")
                          [pi_node false; pi_node true]
                          (sample_oracle 1000 delivered) (sample_world ∅))))
      = ([] ++ new)%list /\
      Forall (fun p => exists r, snd p = RecordText r /\
                (firstDownTs r <> 0 <-> state r = Some OFFLINE) /\
                (state r = Some ONLINE -> alertTs r = 0 /\ firstDownTs r = 0)) new) /\
  firstDownTs {| state := Some OFFLINE; alertTs := 1000; firstDownTs := 1000 |}
    <= firstDownTs {| state := Some OFFLINE; alertTs := 14401000; firstDownTs := 1000 |} /\
  Sorted (fun r r' => state r = Some OFFLINE -> state r' = Some OFFLINE ->
                      firstDownTs r <= firstDownTs r')
    (no_record :: replay (JsInt 240) no_record
                    [(pi_node false, 1000); (pi_node false, 14401000);
                     (pi_node true, 14402000)]).
Proof.
  destruct written_records_invariant as (Hwrites & Hstore & Hepisode).
  repeat split.
  - apply (Hwrites (sample_config "240" "tag:critical") [pi_node false; pi_node true]
             (sample_oracle 1000 delivered) (sample_world ∅) _ (Returned tt)).
    + intros i. cbn. lia.
    + vm_compute. reflexivity.
  - apply (Hstore (sample_config "240" "tag:critical") (pi_node false)
             (sample_oracle 14401000 delivered)
             (sample_world (pi_store {| state := Some OFFLINE; alertTs := 1000;
                                        firstDownTs := 1000 |}))
             (snd (process_node (sample_config "240" "tag:critical") (pi_node false)
                     (sample_oracle 14401000 delivered)
                     (sample_world (pi_store {| state := Some OFFLINE; alertTs := 1000;
                                                firstDownTs := 1000 |}))))
             (Returned tt) "node:pi:pi"
             {| state := Some OFFLINE; alertTs := 1000; firstDownTs := 1000 |}
             {| state := Some OFFLINE; alertTs := 14401000; firstDownTs := 1000 |});
      [intros i; cbn; lia | by_computation ..].
  - apply Hepisode. repeat constructor.
Defined.

(** ** A second pass at the same instant (C4) *)

Lemma reconcile_second_pass (prev : StoredNodeState) (node : TailscaleDevice)
    (now : Z) (interval : jsint) :
  (forall z, interval = JsInt z -> 0 < z) ->
  let first := reconcile prev node now interval in
  let second := reconcile (newKVData first) node now interval in
  needsKVWrite second = false /\ message second = None /\
  newKVData second = newKVData first.
Proof.
  intros Hpos first second.
  assert (Hquiet : forall A, Js.ge (minutes_of (now - A)) interval = true -> now - A <> 0).
  { intros A. destruct interval as [z |]; [| discriminate].
    rewrite ge_minutes. specialize (Hpos z eq_refl). lia. }
  assert (Hsilent : forall F,
             let r := {| state := Some OFFLINE; alertTs := now; firstDownTs := F |} in
             reconcile r node now interval =
             {| message := None; newKVData := r; needsKVWrite := false |} \/
             isOnline node = true).
  { intros F r. destruct (isOnline node) eqn:Hon; [now right | left].
    rewrite (reconcile_still_offline r node now interval Hon eq_refl).
    destruct (Js.ge _ interval) eqn:Hge; [| reflexivity].
    apply Hquiet in Hge. cbn in Hge. lia. }
  destruct (reconcile_cases prev node now interval)
    as [(Hn & Hr & Hm) | [(_ & Hr & Hon) | [(_ & Hr & Hoff & _) | (_ & Hr & Hoff & _)]]];
    fold first in Hr; try fold first in Hn, Hm; subst second; rewrite Hr.
  - fold first. auto.
  - rewrite (reconcile_stays_online
               {| state := Some ONLINE; alertTs := 0; firstDownTs := 0 |}
               node now interval Hon eq_refl). cbn. auto.
  - destruct (Hsilent now) as [-> | Hon]; [cbn; auto | congruence].
  - destruct (Hsilent (down_since (firstDownTs prev) now)) as [-> | Hon];
      [cbn; auto | congruence].
Qed.

(** C4, as amended.  The reminder interval is positive (or not a number).
    A pass is run over a node, and then a second pass with the same
    observation, the same reading of the clock and the record the first
    pass left as its prior: the second pass decides on no write and no
    message, and in the world it sends nothing, writes nothing and leaves
    the store as the first pass left it. *)
Theorem second_pass_is_silent (config : AppConfig) (node : TailscaleDevice)
    (o : oracle) (w : world) (prev : StoredNodeState) :
  (forall z, reminderIntervalMinutes config = JsInt z -> 0 < z) ->
  skipped config node = false ->
  kv_read_error o (kvKey node) = None ->
  previous_state (kv w !! kvKey node) = Returned prev ->
  clock o (S (clock_reads w)) = clock o (clock_reads w) ->
  let now := clock o (clock_reads w) in
  let first := reconcile prev node now (reminderIntervalMinutes config) in
  let second := reconcile (newKVData first) node now (reminderIntervalMinutes config) in
  (needsKVWrite second = false /\ message second = None) /\
  exists w1 w2 : world,
    process_node config node o w = (Returned tt, w1) /\
    process_node config node o w1 = (Returned tt, w2) /\
    posts (trace w2) = posts (trace w1) /\
    puts (trace w2) = puts (trace w1) /\
    kv w2 = kv w1.
Proof.
  intros Hpos Hskip Hread Hprev Hclock now first second.
  destruct (reconcile_second_pass prev node now (reminderIntervalMinutes config) Hpos)
    as (Hw & Hm & _). fold first second in Hw, Hm.
  split; [auto |].
  destruct (process_node_effects_gen config node o w prev Hskip Hread Hprev)
    as (w1 & Hrun1 & Hkv1 & Hclk1 & _).
  unfold decision_in in Hkv1. fold now first in Hkv1.
  assert (Hprev1 : previous_state (kv w1 !! kvKey node) = Returned (newKVData first)).
  { rewrite Hkv1. unfold store_after, persisted.
    destruct (reconcile_cases prev node now (reminderIntervalMinutes config))
      as [(Hn & Hr & _) | [(Hn & _) | [(Hn & _) | (Hn & _)]]];
      fold first in Hn; try fold first in Hr; rewrite Hn.
    - now rewrite Hr.
    - now rewrite lookup_insert_eq.
    - now rewrite lookup_insert_eq.
    - now rewrite lookup_insert_eq. }
  destruct (process_node_effects_gen config node o w1 (newKVData first) Hskip Hread Hprev1)
    as (w2 & Hrun2 & Hkv2 & _ & _ & Hposts2 & Hputs2).
  unfold decision_in in Hkv2, Hposts2, Hputs2.
  rewrite Hclk1, Hclock in Hkv2, Hposts2, Hputs2.
  fold now second in Hkv2, Hposts2, Hputs2.
  unfold store_after, persisted in Hkv2, Hputs2.
  rewrite Hw in Hkv2, Hputs2. rewrite Hm in Hposts2.
  cbn in Hposts2. rewrite app_nil_r in Hposts2, Hputs2.
  exists w1, w2. auto.
Qed.

Lemma second_pass_is_silent_witness :
  exists w1 w2 : world,
    process_node (sample_config "240" "tag:critical") (pi_node false)
      (sample_oracle 1000 delivered) (sample_world ∅) = (Returned tt, w1) /\
    process_node (sample_config "240" "tag:critical") (pi_node false)
      (sample_oracle 1000 delivered) w1 = (Returned tt, w2) /\
    puts (trace w2) = puts (trace w1).
Proof.
  destruct (second_pass_is_silent (sample_config "240" "tag:critical") (pi_node false)
              (sample_oracle 1000 delivered) (sample_world ∅) no_record)
    as (_ & w1 & w2 & Hrun1 & Hrun2 & _ & Hputs & _); [| by_computation .. |].
  { intros z Hz. vm_compute in Hz. injection Hz as <-. lia. }
  exists w1, w2. auto.
Defined.

(** C4, the counterexample.  [REMINDER_INTERVAL_MINUTES = "0"] is a
    configuration [loadAppConfig] accepts.  Under it, a node without a
    record is seen offline at [now = 1000]; the second pass, at the same
    instant and over the record the first pass wrote, sends a reminder and
    writes again. *)
Lemma second_pass_reminds_at_zero_interval :
  let config := sample_config "0" "tag:critical" in
  let o := sample_oracle 1000 delivered in
  let w1 := snd (process_node config (pi_node false) o (sample_world ∅)) in
  let w2 := snd (process_node config (pi_node false) o w1) in
  let record := RecordText {| state := Some OFFLINE; alertTs := 1000; firstDownTs := 1000 |} in
  loadAppConfig (sample_env "0" "tag:critical") = Returned config /\
  kv w1 !! "node:pi:pi" = Some record /\
  puts (trace w1) = [("node:pi:pi", record)] /\
  puts (trace w2) = [("node:pi:pi", record); ("node:pi:pi", record)] /\
  length (posts (trace w1)) = 1%nat /\
  length (posts (trace w2)) = 2%nat.
Proof. vm_compute. repeat split; reflexivity. Qed.

(** ** A failing read in the middle of a cycle (C6) *)

Lemma process_devices_app (config : AppConfig) (before after : list TailscaleDevice)
    (o : oracle) (w : world) :
  process_devices config (before ++ after) o w =
  match process_devices config before o w with
  | (Returned _, w1) => process_devices config after o w1
  | (Thrown e, w1) => (Thrown e, w1)
  end.
Proof.
  unfold process_devices. revert w.
  induction before as [| node rest IH]; intros w; [reflexivity |].
  cbn [for_each app]. unfold bind.
  destruct (process_node config node o w) as [[[] | e] w1]; [apply IH | reflexivity].
Qed.

(** C6, as amended.  In a cycle over a device list, a store read that
    fails, or a stored text that [JSON.parse] rejects, is not handled for
    the one device: the error leaves the loop.  The devices before it have
    been processed; for the failing device the read is the last store
    access of the cycle, so that it gets no write and no device after it is
    read or written; the handler of the cycle then sends the one
    "Worker Error" notification with the error's message. *)
Theorem read_error_aborts_cycle (config : AppConfig)
    (before after : list TailscaleDevice) (node : TailscaleDevice)
    (o : oracle) (w w1 : world) (e : string) :
  process_devices config before o w = (Returned tt, w1) ->
  skipped config node = false ->
  kv_read_error o (kvKey node) = Some e \/
  (kv_read_error o (kvKey node) = None /\
   previous_state (kv w1 !! kvKey node) = Thrown e) ->
  process_devices config (before ++ node :: after) o w =
    (Thrown e, record_event (KvGet (kvKey node)) w1) /\
  exists w' : world,
    try_catch (process_devices config (before ++ node :: after)) (on_error config) o w =
      (Returned tt, w') /\
    kv w' = kv w1 /\
    gets (trace w') = (gets (trace w1) ++ [kvKey node])%list /\
    puts (trace w') = puts (trace w1) /\
    posts (trace w') = (posts (trace w1) ++ sent config (Some (worker_error_text e)))%list.
Proof.
  intros Hbefore Hskip Hfail.
  assert (Hloop : process_devices config (before ++ node :: after) o w =
                  (Thrown e, record_event (KvGet (kvKey node)) w1)).
  { rewrite process_devices_app, Hbefore.
    unfold process_devices. cbn [for_each]. unfold bind.
    now rewrite (process_node_throws config node o w1 e Hskip Hfail). }
  split; [exact Hloop |].
  unfold try_catch. rewrite Hloop. unfold on_error. fold (worker_error_text e).
  destruct (notify_returns config (worker_error_text e) o
              (record_event (KvGet (kvKey node)) w1))
    as (w' & Hrun & (Hkv & _ & Hputs & Hgets) & Hposts).
  exists w'. split; [exact Hrun |].
  cbn in Hkv, Hputs, Hgets, Hposts.
  rewrite puts_app in Hputs. rewrite gets_app in Hgets. rewrite posts_app in Hposts.
  cbn in Hputs, Hgets, Hposts. rewrite app_nil_r in Hputs, Hposts.
  unfold sent. auto.
Qed.

Lemma read_error_aborts_cycle_witness :
  exists w' : world,
    try_catch (process_devices (sample_config "240" "tag:critical")
                 ([offline_node "a"] ++ offline_node "b" :: [offline_node "c"]))
      (on_error (sample_config "240" "tag:critical")) two_nodes_oracle
      (sample_world {[ "node:b:b" := BadText "Unexpected token" ]})
    = (Returned tt, w') /\
    gets (trace w') = ["node:a:a"; "node:b:b"].
Proof.
  destruct (read_error_aborts_cycle (sample_config "240" "tag:critical")
              [offline_node "a"] [offline_node "c"] (offline_node "b")
              two_nodes_oracle
              (sample_world {[ "node:b:b" := BadText "Unexpected token" ]})
              (snd (process_devices (sample_config "240" "tag:critical")
                      [offline_node "a"] two_nodes_oracle
                      (sample_world {[ "node:b:b" := BadText "Unexpected token" ]})))
              "Unexpected token")
    as (_ & w' & Hrun & _ & Hgets & _); [by_computation | by_computation | |].
  { right. split; by_computation. }
  exists w'. split; [exact Hrun |]. rewrite Hgets. by_computation.
Defined.

(** C6, the counterexample.  The tailnet lists the offline nodes [a] and
    [b]; the text stored for [a] is not JSON and nothing is stored for [b].
    The scheduled run reads [a]'s key and nothing else: [a] is not treated
    as a node without a record (no alert, no write for it), [b] is not
    processed (no read, no alert, no write), and the one message sent is
    the "Worker Error" of the cycle. *)
Lemma corrupt_record_stops_scheduled_run :
  let w := sample_world {[ "node:a:a" := BadText "Unexpected token" ]} in
  let w' := snd (scheduled (sample_env "240" "tag:critical") two_nodes_oracle w) in
  gets (trace w') = ["node:a:a"] /\
  puts (trace w') = [] /\
  kv w' !! "node:b:b" = None /\
  posts (trace w') = [worker_error_text "Unexpected token"].
Proof. vm_compute. repeat split; reflexivity. Qed.

(** ** The liveness verdict (C7) *)

Lemma round_nearest (q : Q) :
  (inject_Z (Math_round q) - (1 # 2) <= q)%Q /\ (q < inject_Z (Math_round q) + (1 # 2))%Q.
Proof.
  unfold Math_round.
  pose proof (Qfloor_le (q + (1 # 2))) as Hle.
  pose proof (Qlt_floor (q + (1 # 2))) as Hlt.
  rewrite inject_Z_plus in Hlt. change (inject_Z 1) with 1%Q in Hlt.
  split; lra.
Qed.

(** C7.  For a device whose last contact reads as the instant [t], seen at
    [now] under the threshold [T]: with [m = (now - t) / 60000] the elapsed
    minutes, unrounded, the verdict is online exactly when [m <= T] (so
    also when [m = T]); the minutes reported are [Math.round m], the
    integer nearest to [m], and take no part in the comparison. *)
Theorem online_iff_within_threshold (now T t : Z) (device : ApiDevice) :
  lastSeenTime device = Some t ->
  let m := minutes_of (now - t) in
  exists details : TailscaleDevice,
    Tailscale.classify now (JsInt T) device = Returned details /\
    (isOnline details = true <-> (m <= inject_Z T)%Q) /\
    (isOnline details = true <-> now - t <= T * 60000) /\
    minutesSinceLastSeen details = Math_round m /\
    (inject_Z (minutesSinceLastSeen details) - (1 # 2) <= m)%Q /\
    (m < inject_Z (minutesSinceLastSeen details) + (1 # 2))%Q.
Proof.
  intros Ht m. unfold Tailscale.classify. rewrite Ht.
  eexists. split; [reflexivity |]. cbn [isOnline minutesSinceLastSeen].
  fold m. repeat split.
  - unfold Js.le. apply Qle_bool_iff.
  - unfold Js.le. apply Qle_bool_iff.
  - subst m. rewrite le_minutes. lia.
  - subst m. rewrite le_minutes. lia.
  - apply round_nearest.
  - apply round_nearest.
Qed.

(** A device last seen 15.4 minutes ago under a threshold of 15 minutes is
    offline, and is reported as seen 15 minutes ago. *)
Lemma online_iff_within_threshold_witness :
  exists details : TailscaleDevice,
    Tailscale.classify 924000 (JsInt 15) (api_node "a") = Returned details /\
    isOnline details = false /\ minutesSinceLastSeen details = 15.
Proof.
  destruct (online_iff_within_threshold 924000 15 0 (api_node "a") eq_refl)
    as (details & Hrun & _ & Hms & Hround & _).
  exists details. split; [exact Hrun |]. split.
  - destruct (isOnline details); [| reflexivity].
    exfalso. assert (H : 924000 - 0 <= 15 * 60000) by now apply Hms. lia.
  - rewrite Hround. reflexivity.
Defined.

(** ** The tag filter (C8) *)

Lemma deviceHasRequiredTag_spec (config : AppConfig) (node : TailscaleDevice) :
  deviceHasRequiredTag config node = true <->
  exists tag, In tag (tags node) /\ In tag (monitorTags config).
Proof.
  unfold deviceHasRequiredTag. rewrite existsb_exists. split.
  - intros (tag & Hin & Hex). apply existsb_exists in Hex as (tag' & Hin' & Heq).
    apply String.eqb_eq in Heq. subst tag'. eauto.
  - intros (tag & Hin & Hin'). exists tag. split; [exact Hin |].
    apply existsb_exists. exists tag. split; [exact Hin' | apply String.eqb_refl].
Qed.

(** C8.  A node is processed when it is not skipped by the tag filter.
    With no tag configured every node is processed; with tags configured a
    node is processed exactly when one of its tags is a configured tag.  A
    skipped node leaves the world as it is: no store read, no store write,
    no notification.  A processed node reaches the read of its key. *)
Theorem tag_filter (config : AppConfig) (node : TailscaleDevice) :
  (monitorTags config = [] -> skipped config node = false) /\
  (monitorTags config <> [] ->
     (skipped config node = false <->
      exists tag, In tag (tags node) /\ In tag (monitorTags config))) /\
  (skipped config node = true ->
     forall (o : oracle) (w : world), process_node config node o w = (Returned tt, w)) /\
  (skipped config node = false ->
     forall (o : oracle) (w : world),
     exists (res : outcome unit) (w' : world),
       process_node config node o w = (res, w') /\
       gets (trace w') = (gets (trace w) ++ [kvKey node])%list).
Proof.
  repeat split.
  - intros Hnone. unfold skipped. now rewrite Hnone.
  - intros Hskip. unfold skipped in Hskip.
    destruct (monitorTags config) as [| t l] eqn:Htags; [contradiction |].
    rewrite <- Htags in *. apply deviceHasRequiredTag_spec.
    assert (Hlen : (0 <? Z.of_nat (length (monitorTags config))) = true).
    { rewrite Htags. cbn [length]. apply Z.ltb_lt. lia. }
    rewrite Hlen in Hskip. cbn [andb] in Hskip. now destruct (deviceHasRequiredTag _ _).
  - intros Htag. apply deviceHasRequiredTag_spec in Htag.
    unfold skipped. rewrite Htag. cbn [negb]. apply andb_false_r.
  - intros Hskip o w. now apply process_node_skipped.
  - intros Hskip o w.
    destruct (kv_read_error o (kvKey node)) as [e |] eqn:Hread.
    { eexists _, _. split; [apply (process_node_throws _ _ _ _ e Hskip); auto |].
      cbn. rewrite gets_app. reflexivity. }
    destruct (previous_state (kv w !! kvKey node)) as [prev | e] eqn:Hprev.
    + destruct (process_node_effects_gen config node o w prev Hskip Hread Hprev)
        as (w' & Hrun & _ & _ & Hgets & _). eauto.
    + eexists _, _. split; [apply (process_node_throws _ _ _ _ e Hskip); auto |].
      cbn. rewrite gets_app. reflexivity.
Qed.

(** Scenario 5 of the specification: the filter [tag:critical] and a node
    tagged [tag:other]. *)
Lemma tag_filter_witness :
  process_node (sample_config "240" "tag:critical")
    (sample_node "pi" false ["tag:other"])
    (sample_oracle 1000 delivered) (sample_world ∅)
  = (Returned tt, sample_world ∅).
Proof.
  destruct (tag_filter (sample_config "240" "tag:critical")
              (sample_node "pi" false ["tag:other"])) as (_ & _ & Hskipped & _).
  apply Hskipped. by_computation.
Defined.

(** ** The notifier never throws (C9) *)

Lemma message_needs_write (prev : StoredNodeState) (node : TailscaleDevice)
    (now : Z) (interval : jsint) (text : string) :
  message (reconcile prev node now interval) = Some text ->
  needsKVWrite (reconcile prev node now interval) = true.
Proof.
  intros Hm.
  destruct (reconcile_cases prev node now interval)
    as [(_ & _ & Hnone) | [(Hw & _) | [(Hw & _) | (Hw & _)]]]; congruence.
Qed.

(** C9.  [sendTelegramNotification] returns for every message, token and
    chat id, whatever Telegram does: its result holds [success], with an
    [error] text when [success] is false (and none when it is true).  So
    whenever a pass over a node decides on a message, the pass returns, and
    the record it decided on is written under the node's key after the
    notification, whatever the outcome of the delivery. *)
Theorem notifier_never_blocks_the_write :
  (forall (messageText botToken chatId : string) (o : oracle) (w : world),
      exists (r : Telegram.result) (w' : world),
        Telegram.sendTelegramNotification messageText botToken chatId o w
          = (Returned r, w') /\
        (Telegram.success r = false -> exists e, Telegram.error r = Some e) /\
        (Telegram.success r = true -> Telegram.error r = None)) /\
  (forall (config : AppConfig) (node : TailscaleDevice) (o : oracle) (w : world)
          (prev : StoredNodeState) (text : string),
      skipped config node = false ->
      kv_read_error o (kvKey node) = None ->
      previous_state (kv w !! kvKey node) = Returned prev ->
      let d := reconcile prev node (clock o (clock_reads w))
                 (reminderIntervalMinutes config) in
      message d = Some text ->
      exists w' : world,
        process_node config node o w = (Returned tt, w') /\
        posts (trace w') = (posts (trace w) ++ sent config (Some text))%list /\
        puts (trace w') = (puts (trace w) ++ [(kvKey node, RecordText (newKVData d))])%list /\
        kv w' !! kvKey node = Some (RecordText (newKVData d))).
Proof.
  split.
  - intros messageText botToken chatId o w.
    destruct (sendTelegramNotification_returns messageText botToken chatId o w)
      as (r & w' & Hrun & Hfalse & Htrue & _).
    exists r, w'. auto.
  - intros config node o w prev text Hskip Hread Hprev d Hm.
    destruct (process_node_effects_gen config node o w prev Hskip Hread Hprev)
      as (w' & Hrun & Hkv & _ & _ & Hposts & Hputs).
    unfold decision_in in Hkv, Hposts, Hputs. fold d in Hkv, Hposts, Hputs.
    unfold store_after, persisted in Hkv, Hputs.
    assert (Hw : needsKVWrite d = true) by exact (message_needs_write _ _ _ _ _ Hm).
    rewrite Hw in Hkv, Hputs. rewrite Hm in Hposts.
    exists w'. repeat split; auto.
    rewrite Hkv. apply lookup_insert_eq.
Qed.

(** Telegram unreachable: the initial alert fails, the record is written. *)
Lemma notifier_never_blocks_the_write_witness :
  (exists (r : Telegram.result) (w' : world),
      Telegram.sendTelegramNotification "text" "bot" "42"
        (sample_oracle 1000 (TgRejects "network down")) (sample_world ∅) = (Returned r, w') /\
      Telegram.success r = false /\
      Telegram.error r = Some "Workspace Error: network down") /\
  (exists w' : world,
      process_node (sample_config "240" "tag:critical") (pi_node false)
        (sample_oracle 1000 (TgRejects "network down")) (sample_world ∅) = (Returned tt, w') /\
      kv w' !! "node:pi:pi" =
        Some (RecordText {| state := Some OFFLINE; alertTs := 1000; firstDownTs := 1000 |})).
Proof.
  destruct notifier_never_blocks_the_write as [Hreturns Hwrite].
  split.
  - destruct (Hreturns "text" "bot" "42" (sample_oracle 1000 (TgRejects "network down"))
                (sample_world ∅)) as (r & w' & Hrun & _).
    exists r, w'. split; [exact Hrun |].
    vm_compute in Hrun. injection Hrun as <- <-. split; reflexivity.
  - destruct (Hwrite (sample_config "240" "tag:critical") (pi_node false)
                (sample_oracle 1000 (TgRejects "network down")) (sample_world ∅)
                no_record
                (offline_message "pi" "2025\-01\-01T00:00:00Z" 20))
      as (w' & Hrun & _ & _ & Hkv); [by_computation .. |].
    exists w'. split; [exact Hrun | exact Hkv].
Defined.

(** ** The status endpoint refuses other methods (C10) *)

(** C10.  A request whose method is not GET is answered with status 405,
    the header [Allow: GET] and the body [{success: false, error: "Method
    Not Allowed"}].  The answer is the same for every [env] (also one whose
    configuration does not load) and every [X-Auth-Token], and the world is
    left as it is: nothing is read from the KV namespace. *)
Theorem fetch_method_not_allowed (request : Http.Request) (env : gmap string envval)
    (o : oracle) (w : world) :
  Http.method request <> "GET" ->
  Http.fetch request env o w =
  (Returned {| Http.status := 405;
               Http.headers := [("Content-Type", "application/json"); ("Allow", "GET")];
               Http.body := Http.Failure "Method Not Allowed" |},
   w).
Proof.
  intros Hmethod. unfold Http.fetch.
  apply String.eqb_neq in Hmethod. now rewrite Hmethod.
Qed.

(** A POST without configuration and without a token. *)
Lemma fetch_method_not_allowed_witness :
  Http.fetch {| Http.method := "POST"; Http.x_auth_token := None |} ∅
    (sample_oracle 1000 delivered)
    (sample_world (pi_store {| state := Some ONLINE; alertTs := 0; firstDownTs := 0 |}))
  = (Returned {| Http.status := 405;
                 Http.headers := [("Content-Type", "application/json"); ("Allow", "GET")];
                 Http.body := Http.Failure "Method Not Allowed" |},
     sample_world (pi_store {| state := Some ONLINE; alertTs := 0; firstDownTs := 0 |})).
Proof.
  apply (fetch_method_not_allowed {| Http.method := "POST"; Http.x_auth_token := None |}).
  discriminate.
Defined.

(** * Further properties of the code *)

(** ** [escapeMarkdownV2] *)

Lemma backslash_not_special : existsb (Ascii.eqb "\"%char) charsToEscape = false.
Proof. reflexivity. Qed.

Lemma special_In (c : ascii) : existsb (Ascii.eqb c) charsToEscape = true <-> In c charsToEscape.
Proof.
  rewrite existsb_exists. split.
  - intros (d & Hin & Heq). apply Ascii.eqb_eq in Heq. now subst.
  - intros Hin. exists c. split; [exact Hin | apply Ascii.eqb_refl].
Qed.

(** The escaped text never starts with a character of the escaped set. *)
Lemma escape_head (text : string) (c : ascii) (rest : string) :
  escapeMarkdownV2 text = String c rest -> existsb (Ascii.eqb c) charsToEscape = false.
Proof.
  destruct text as [| a text]; [discriminate |]. cbn [escapeMarkdownV2].
  destruct (existsb (Ascii.eqb a) charsToEscape) eqn:Ha; intros [= <- _].
  - exact backslash_not_special.
  - exact Ha.
Qed.



(** X2.  [escapeMarkdownV2] loses nothing: two texts with the same escaped
    text are the same text. *)
Theorem escape_injective (a b : string) :
  escapeMarkdownV2 a = escapeMarkdownV2 b -> a = b.
Proof.
  revert b. induction a as [| c a IH]; intros [| d b]; cbn [escapeMarkdownV2].
  - reflexivity.
  - destruct (existsb (Ascii.eqb d) charsToEscape); discriminate.
  - destruct (existsb (Ascii.eqb c) charsToEscape); discriminate.
  - destruct (existsb (Ascii.eqb c) charsToEscape) eqn:Hc;
      destruct (existsb (Ascii.eqb d) charsToEscape) eqn:Hd.
    + intros [= -> H]. f_equal. now apply IH.
    + intros [= <- H]. symmetry in H. apply escape_head in H. congruence.
    + intros [= -> H]. apply escape_head in H. congruence.
    + intros [= -> H]. f_equal. now apply IH.
Qed.

Lemma escape_injective_witness : "tag:a" = "tag:a".
Proof. apply escape_injective. reflexivity. Defined.

(** X3.  [escapeMarkdownV2] works character by character: the escaped
    text of a concatenation is the concatenation of the escaped texts, and
    a text without a character of the escaped set is returned as it is. *)
Theorem escape_concat :
  (forall a b : string,
      escapeMarkdownV2 (a +:+ b) = escapeMarkdownV2 a +:+ escapeMarkdownV2 b) /\
  (forall text : string,
      (forall c, In c (list_ascii_of_string text) -> ~ In c charsToEscape) ->
      escapeMarkdownV2 text = text).
Proof.
  split.
  - intros a b. induction a as [| c a IH]; [reflexivity |].
    change (String c a +:+ b) with (String c (a +:+ b)). cbn [escapeMarkdownV2].
    rewrite IH. now destruct (existsb (Ascii.eqb c) charsToEscape).
  - intros text. induction text as [| c text IH]; intros Hfree; [reflexivity |].
    cbn [escapeMarkdownV2].
    destruct (existsb (Ascii.eqb c) charsToEscape) eqn:Hc.
    + apply special_In in Hc. exfalso. apply (Hfree c); [now left | exact Hc].
    + f_equal. apply IH. intros d Hd. apply Hfree. now right.
Qed.

Lemma escape_concat_witness :
  escapeMarkdownV2 ("pi" +:+ ".lan") = "pi" +:+ "\.lan" /\ escapeMarkdownV2 "pi" = "pi".
Proof.
  destruct escape_concat as [Happ Hfree]. split.
  - rewrite Happ. reflexivity.
  - apply Hfree. intros c Hin. cbn in Hin.
    destruct Hin as [<- | [<- | []]]; cbn; intros H;
      repeat (destruct H as [H | H]; [discriminate |]); exact H.
Defined.

(** ** [sendTelegramNotification] *)

(** X4.  [sendTelegramNotification] reports success exactly when both
    secrets are present and Telegram answers [ok: true].  Without a secret
    it makes no request and changes nothing; with both it makes exactly one
    request. *)
Theorem telegram_success_iff (messageText botToken chatId : string)
    (o : oracle) (w : world) :
  exists (r : Telegram.result) (w' : world),
    Telegram.sendTelegramNotification messageText botToken chatId o w = (Returned r, w') /\
    (Telegram.success r = true <->
       truthy_str botToken = true /\ truthy_str chatId = true /\
       exists description error_code,
         telegram_net o (telegram_calls w) = TgReplies true description error_code) /\
    (truthy_str botToken && truthy_str chatId = false ->
       w' = w /\
       Telegram.error r = Some "Telegram secrets not provided to function") /\
    (truthy_str botToken && truthy_str chatId = true ->
       telegram_calls w' = S (telegram_calls w) /\
       trace w' = (trace w ++ [TelegramPost messageText botToken chatId
                                 (telegram_net o (telegram_calls w))])%list).
Proof.
  unfold Telegram.sendTelegramNotification.
  destruct (truthy_str botToken); cbn [negb orb andb].
  2:{ eexists _, w. split; [reflexivity |]. cbn.
      repeat split; try discriminate; intros (? & _); discriminate. }
  destruct (truthy_str chatId); cbn [negb orb andb].
  2:{ eexists _, w. split; [reflexivity |]. cbn.
      repeat split; try discriminate; intros (_ & ? & _); discriminate. }
  unfold try_catch, bind, Telegram.post.
  destruct (telegram_net o (telegram_calls w)) as [fetchErr | [] description error_code];
    cbn; eexists _, _; (split; [reflexivity |]); cbn;
    repeat split; try discriminate; eauto.
  - intros (_ & _ & d & c & H). discriminate.
  - intros (_ & _ & d & c & H). discriminate.
Qed.

(** ** [ensureRequiredEnv] and [loadAppConfig] *)

Lemma ensureRequiredEnv_complete (env : gmap string envval) (requiredKeys : list string) :
  (forall key, In key requiredKeys -> truthy (env !! key) = true) ->
  ensureRequiredEnv env requiredKeys = Returned tt.
Proof.
  intros Hall. unfold ensureRequiredEnv.
  replace (List.filter _ requiredKeys) with (@nil string); [reflexivity |].
  symmetry. induction requiredKeys as [| key rest IH]; [reflexivity |].
  cbn [List.filter]. rewrite (Hall key) by now left. cbn [negb].
  apply IH. intros k Hk. apply Hall. now right.
Qed.

(** X5.  [ensureRequiredEnv] returns exactly when every required key is
    set to a truthy value; otherwise it throws the "Configuration Error"
    whose text lists the missing keys, each of them and only them, in the
    order of [requiredKeys]. *)
Theorem ensureRequiredEnv_iff (env : gmap string envval) (requiredKeys : list string) :
  (ensureRequiredEnv env requiredKeys = Returned tt <->
   forall key, In key requiredKeys -> truthy (env !! key) = true) /\
  (forall e, ensureRequiredEnv env requiredKeys = Thrown e ->
     exists missingKeys,
       e = "Configuration Error: Missing required environment variable(s): "
           +:+ Js.join ", " missingKeys /\
       missingKeys <> [] /\
       (forall key, In key missingKeys <->
                    In key requiredKeys /\ truthy (env !! key) = false) /\
       sublist missingKeys requiredKeys).
Proof.
  split; [split |].
  - apply ensureRequiredEnv_ok.
  - apply ensureRequiredEnv_complete.
  - intros e. unfold ensureRequiredEnv.
    destruct (List.filter _ requiredKeys) as [| key rest] eqn:Hmissing; [discriminate |].
    intros He. exists (key :: rest).
    split; [change (0 <? Z.of_nat (length (key :: rest))) with true in He; congruence |].
    split; [discriminate |]. rewrite <- Hmissing. split.
    + intros k. rewrite filter_In, negb_true_iff. reflexivity.
    + clear. induction requiredKeys as [| k l IH]; [constructor |].
      cbn [List.filter]. destruct (truthy (env !! k)); cbn [negb].
      * now apply sublist_cons.
      * now apply sublist_skip.
Qed.

Lemma ensureRequiredEnv_iff_witness :
  ensureRequiredEnv (sample_env "240" "tag:critical") ALL_REQUIRED_KEYS = Returned tt /\
  exists missingKeys,
    "Configuration Error: Missing required environment variable(s): MONITOR_TAGS"
    = "Configuration Error: Missing required environment variable(s): "
      +:+ Js.join ", " missingKeys /\
    missingKeys <> [].
Proof.
  destruct (ensureRequiredEnv_iff (sample_env "240" "tag:critical") ALL_REQUIRED_KEYS)
    as [Hok _].
  destruct (ensureRequiredEnv_iff (sample_env "240" "") ALL_REQUIRED_KEYS) as [_ Hthrown].
  split.
  - apply Hok. intros key Hin. cbn in Hin.
    repeat (destruct Hin as [<- | Hin]; [by_computation |]). destruct Hin.
  - destruct (Hthrown _ ltac:(by_computation)) as (missingKeys & He & Hne & _).
    exists missingKeys. split; [exact He | exact Hne].
Defined.



(** *** The tags of [MONITOR_TAGS] *)

















(** *** [parseInt] on decimal text *)










(** ** The other transitions of [scheduled] *)

(** [Math.round] of a number of minutes, on the milliseconds. *)
Lemma round_minutes (ms : Z) : Math_round (minutes_of ms) = (2 * ms + 60000) / 120000.
Proof.
  rewrite minutes_of_frac. unfold Math_round, Qfloor, Qplus. cbn [Qnum Qden].
  f_equal; lia.
Qed.

Lemma round_minutes_positive (ms : Z) : (0 <? Math_round (minutes_of ms)) = (30000 <=? ms).
Proof.
  rewrite round_minutes.
  destruct (Z.leb_spec 30000 ms) as [H | H].
  - apply Z.ltb_lt. apply Z.div_str_pos. lia.
  - apply Z.ltb_ge.
    destruct (Z.le_gt_cases 0 (2 * ms + 60000)) as [Hnn | Hneg].
    + rewrite Z.div_small by lia. lia.
    + apply Z.lt_le_incl. apply Z.div_lt_upper_bound; lia.
Qed.

(** X9.  The recovery: a node seen online whose stored record is OFFLINE
    gets the "ONLINE" message, and [{state: ONLINE, alertTs: 0,
    firstDownTs: 0}] is written under its key.  The message names the
    length of the outage exactly when the stored [firstDownTs] is not zero
    and at least 30 seconds have passed since it; the length is that span
    in minutes, rounded. *)
Theorem recovery_alert (env : gmap string envval) (config : AppConfig)
    (node : TailscaleDevice) (o : oracle) (w : world) (A F : Z) :
  loadAppConfig env = Returned config ->
  skipped config node = false ->
  kv_read_error o (kvKey node) = None ->
  kv w !! kvKey node =
    Some (RecordText {| state := Some OFFLINE; alertTs := A; firstDownTs := F |}) ->
  isOnline node = true ->
  let now := clock o (clock_reads w) in
  let text :=
    online_message (escapeMarkdownV2 (shortNodeName node))
      (if negb (F =? 0) && (30000 <=? now - F)
       then Some ((2 * (now - F) + 60000) / 120000) else None) in
  let record := {| state := Some ONLINE; alertTs := 0; firstDownTs := 0 |} in
  exists w' : world,
    process_node config node o w = (Returned tt, w') /\
    posts (trace w') = (posts (trace w) ++ [text])%list /\
    puts (trace w') = (puts (trace w) ++ [(kvKey node, RecordText record)])%list /\
    kv w' = <[kvKey node := RecordText record]> (kv w).
Proof.
  intros Hload Hskip Hread Hkv Hon now text record.
  destruct (process_node_effects env config node o w
              {| state := Some OFFLINE; alertTs := A; firstDownTs := F |}
              Hload Hskip Hread) as (w' & Hrun & Hstore & _ & _ & Hposts & Hputs).
  { now rewrite Hkv. }
  exists w'. split; [exact Hrun |].
  unfold decision_in, store_after, persisted in Hstore, Hposts, Hputs.
  fold now in Hstore, Hposts, Hputs.
  unfold reconcile in Hstore, Hposts, Hputs. rewrite Hon in Hstore, Hposts, Hputs.
  cbn [negb state is_offline firstDownTs message newKVData needsKVWrite]
    in Hstore, Hposts, Hputs.
  repeat split; try assumption.
  rewrite Hposts. do 2 f_equal. unfold text. f_equal.
  unfold or_num, truthy_num.
  destruct (Z.eqb_spec F 0) as [-> | HF]; cbn [negb andb]; [reflexivity |].
  now rewrite round_minutes_positive, round_minutes.
Qed.

(** Scenario 4 of the specification: prior [{OFFLINE, 1000, 1000}], seen
    online at [now = 5000]; four seconds of outage are not named. *)
Lemma recovery_alert_witness :
  exists w' : world,
    process_node (sample_config "240" "tag:critical") (pi_node true)
      (sample_oracle 5000 delivered)
      (sample_world (pi_store {| state := Some OFFLINE; alertTs := 1000;
                                 firstDownTs := 1000 |}))
    = (Returned tt, w') /\
    posts (trace w') = [online_message "pi" None] /\
    kv w' !! "node:pi:pi" =
      Some (RecordText {| state := Some ONLINE; alertTs := 0; firstDownTs := 0 |}).
Proof.
  destruct (recovery_alert (sample_env "240" "tag:critical")
              (sample_config "240" "tag:critical") (pi_node true)
              (sample_oracle 5000 delivered)
              (sample_world (pi_store {| state := Some OFFLINE; alertTs := 1000;
                                         firstDownTs := 1000 |}))
              1000 1000)
    as (w' & Hrun & Hposts & _ & Hkv); [by_computation .. |].
  exists w'. split; [exact Hrun |]. split; [exact Hposts |].
  rewrite Hkv. apply lookup_insert_eq.
Defined.

(** X10.  A node seen online whose prior state is not OFFLINE gets no
    notification.  When a record is stored for it (state ONLINE) the pass
    only reads the store; when nothing is stored (or the empty text) the
    pass writes [{state: ONLINE, alertTs: 0, firstDownTs: 0}] once. *)
Theorem online_node_is_quiet (config : AppConfig) (node : TailscaleDevice)
    (o : oracle) (w : world) :
  skipped config node = false ->
  kv_read_error o (kvKey node) = None ->
  isOnline node = true ->
  (forall A F,
      kv w !! kvKey node =
        Some (RecordText {| state := Some ONLINE; alertTs := A; firstDownTs := F |}) ->
      exists w' : world,
        process_node config node o w = (Returned tt, w') /\
        posts (trace w') = posts (trace w) /\
        puts (trace w') = puts (trace w) /\
        kv w' = kv w) /\
  (kv w !! kvKey node = None \/ kv w !! kvKey node = Some EmptyText ->
     let record := {| state := Some ONLINE; alertTs := 0; firstDownTs := 0 |} in
     exists w' : world,
       process_node config node o w = (Returned tt, w') /\
       posts (trace w') = posts (trace w) /\
       puts (trace w') = (puts (trace w) ++ [(kvKey node, RecordText record)])%list /\
       kv w' = <[kvKey node := RecordText record]> (kv w)).
Proof.
  intros Hskip Hread Hon. split.
  - intros A F Hkv.
    destruct (process_node_effects_gen config node o w
                {| state := Some ONLINE; alertTs := A; firstDownTs := F |}
                Hskip Hread) as (w' & Hrun & Hstore & _ & _ & Hposts & Hputs).
    { now rewrite Hkv. }
    unfold decision_in, store_after, persisted in Hstore, Hposts, Hputs.
    rewrite (reconcile_stays_online
               {| state := Some ONLINE; alertTs := A; firstDownTs := F |}
               node _ _ Hon eq_refl) in Hstore, Hposts, Hputs.
    cbn in Hstore, Hposts, Hputs. rewrite app_nil_r in Hposts, Hputs.
    exists w'. auto.
  - intros Hnone record.
    destruct (process_node_effects_gen config node o w no_record Hskip Hread)
      as (w' & Hrun & Hstore & _ & _ & Hposts & Hputs).
    { destruct Hnone as [-> | ->]; reflexivity. }
    unfold decision_in, store_after, persisted in Hstore, Hposts, Hputs.
    rewrite (reconcile_stays_online no_record node _ _ Hon eq_refl) in Hstore, Hposts, Hputs.
    cbn in Hstore, Hposts, Hputs. rewrite app_nil_r in Hposts.
    exists w'. auto.
Qed.

(** Scenario 1 of the specification: no prior record, seen online. *)
Lemma online_node_is_quiet_witness :
  exists w' : world,
    process_node (sample_config "240" "tag:critical") (pi_node true)
      (sample_oracle 1000 delivered) (sample_world ∅) = (Returned tt, w') /\
    posts (trace w') = [] /\
    puts (trace w') =
      [("node:pi:pi", RecordText {| state := Some ONLINE; alertTs := 0; firstDownTs := 0 |})].
Proof.
  destruct (online_node_is_quiet (sample_config "240" "tag:critical") (pi_node true)
              (sample_oracle 1000 delivered) (sample_world ∅))
    as [_ Hfirst]; [by_computation .. |].
  destruct Hfirst as (w' & Hrun & Hposts & Hputs & _); [left; by_computation |].
  exists w'. auto.
Defined.

(** X11.  Settings that are not numbers.  When the reminder interval is
    [NaN], a node that is down and was down never gets a reminder: the
    pass sends nothing and writes nothing, however long ago the last alert
    was.  When the threshold is [NaN], every device of the tailnet is
    classified offline. *)
Theorem non_numeric_settings :
  (forall (config : AppConfig) (node : TailscaleDevice) (o : oracle) (w : world) (A F : Z),
      reminderIntervalMinutes config = JsNaN ->
      skipped config node = false ->
      kv_read_error o (kvKey node) = None ->
      kv w !! kvKey node =
        Some (RecordText {| state := Some OFFLINE; alertTs := A; firstDownTs := F |}) ->
      isOnline node = false ->
      exists w' : world,
        process_node config node o w = (Returned tt, w') /\
        posts (trace w') = posts (trace w) /\
        puts (trace w') = puts (trace w) /\
        kv w' = kv w) /\
  (forall (now : Z) (device : ApiDevice) (details : TailscaleDevice),
      Tailscale.classify now JsNaN device = Returned details ->
      isOnline details = false).
Proof.
  split.
  - intros config node o w A F HNaN Hskip Hread Hkv Hoff.
    destruct (process_node_effects_gen config node o w
                {| state := Some OFFLINE; alertTs := A; firstDownTs := F |}
                Hskip Hread) as (w' & Hrun & Hstore & _ & _ & Hposts & Hputs).
    { now rewrite Hkv. }
    unfold decision_in, store_after, persisted in Hstore, Hposts, Hputs.
    rewrite HNaN, (reconcile_still_offline
                     {| state := Some OFFLINE; alertTs := A; firstDownTs := F |}
                     node _ JsNaN Hoff eq_refl) in Hstore, Hposts, Hputs.
    cbn in Hstore, Hposts, Hputs. rewrite app_nil_r in Hposts, Hputs.
    exists w'. auto.
  - intros now device details. unfold Tailscale.classify.
    destruct (lastSeenTime device); [| discriminate]. now intros [= <-].
Qed.

Lemma non_numeric_settings_witness :
  exists w' : world,
    process_node (sample_config "four hours" "tag:critical") (pi_node false)
      (sample_oracle 999999999999 delivered)
      (sample_world (pi_store {| state := Some OFFLINE; alertTs := 1000;
                                 firstDownTs := 1000 |}))
    = (Returned tt, w') /\
    posts (trace w') = [].
Proof.
  destruct non_numeric_settings as [Hnever _].
  destruct (Hnever (sample_config "four hours" "tag:critical") (pi_node false)
              (sample_oracle 999999999999 delivered)
              (sample_world (pi_store {| state := Some OFFLINE; alertTs := 1000;
                                         firstDownTs := 1000 |}))
              1000 1000)
    as (w' & Hrun & Hposts & _); [by_computation .. |].
  exists w'. split; [exact Hrun | exact Hposts].
Defined.

(** ** The scheduled run as a whole *)

(** What the query of the tailnet leaves untouched, whatever it ends in. *)
Lemma getTailscaleNodeDetails_frame (config : AppConfig) (o : oracle) (w w' : world)
    (res : outcome Tailscale.StatusResult) :
  Tailscale.getTailscaleNodeDetails config o w = (res, w') ->
  kv w' = kv w /\ puts (trace w') = puts (trace w) /\
  gets (trace w') = gets (trace w) /\ posts (trace w') = posts (trace w) /\
  telegram_calls w' = telegram_calls w.
Proof.
  assert (Hev : forall w0 : world,
             trace w0 = (trace w ++ [TailscaleGet (tailnetName config)])%list ->
             puts (trace w0) = puts (trace w) /\ gets (trace w0) = gets (trace w) /\
             posts (trace w0) = posts (trace w)).
  { intros w0 ->. rewrite puts_app, gets_app, posts_app. cbn. now rewrite !app_nil_r. }
  unfold Tailscale.getTailscaleNodeDetails, bind, Tailscale.api_get.
  destruct (access_token o) as [token | e].
  2:{ intros [= <- <-]. repeat split; reflexivity. }
  destruct (tailscale_api o) as [err | status errorText | err | devices].
  1-3: intros [= <- <-];
    destruct (Hev (record_event (TailscaleGet (tailnetName config)) w) eq_refl)
      as (? & ? & ?); repeat split; first [assumption | reflexivity].
  destruct (Z.of_nat (length (default [] devices)) =? 0).
  - intros [= <- <-].
    destruct (Hev (record_event (TailscaleGet (tailnetName config)) w) eq_refl)
      as (? & ? & ?). repeat split; first [assumption | reflexivity].
  - unfold Date_now, lift.
    destruct (Tailscale.classify_all _ _ _); intros [= <- <-];
      cbn [kv clock_reads telegram_calls trace record_event];
      destruct (Hev (record_event (TailscaleGet (tailnetName config)) w) eq_refl)
        as (? & ? & ?); repeat split; first [assumption | reflexivity].
Qed.


(** X13.  When the device list cannot be had (the access token, the
    request, the status of the reply, its decoding or the date of a
    device fails), the scheduled run sends exactly one message, the
    "Worker Error" with the error's text, and makes no access to the
    store. *)
Theorem source_failure_alert (env : gmap string envval) (config : AppConfig)
    (o : oracle) (w w1 : world) (e : string) :
  loadAppConfig env = Returned config ->
  Tailscale.getTailscaleNodeDetails config o w = (Thrown e, w1) ->
  exists w' : world,
    scheduled env o w = (Returned tt, w') /\
    posts (trace w') = (posts (trace w) ++ [worker_error_text e])%list /\
    gets (trace w') = gets (trace w) /\
    puts (trace w') = puts (trace w) /\
    kv w' = kv w.
Proof.
  intros Hload Hfail.
  destruct (getTailscaleNodeDetails_frame _ _ _ _ _ Hfail)
    as (Hkv1 & Hputs1 & Hgets1 & Hposts1 & _).
  destruct (loadAppConfig_secrets _ _ Hload) as [Hbot Hchat].
  unfold scheduled. rewrite Hload. unfold try_catch, bind. rewrite Hfail.
  unfold on_error. fold (worker_error_text e).
  destruct (notify_returns config (worker_error_text e) o w1)
    as (w' & Hrun & (Hkv & _ & Hputs & Hgets) & Hposts).
  rewrite Hbot, Hchat in Hposts. cbn [andb] in Hposts.
  exists w'. split; [exact Hrun |]. repeat split; congruence.
Qed.

Lemma source_failure_alert_witness :
  exists w' : world,
    scheduled (sample_env "240" "tag:critical") failing_api_oracle (sample_world ∅)
      = (Returned tt, w') /\
    posts (trace w') = [worker_error_text "Tailscale API Error: 403 - forbidden"].
Proof.
  destruct (source_failure_alert (sample_env "240" "tag:critical")
              (sample_config "240" "tag:critical") failing_api_oracle (sample_world ∅)
              (snd (Tailscale.getTailscaleNodeDetails (sample_config "240" "tag:critical")
                      failing_api_oracle (sample_world ∅)))
              "Tailscale API Error: 403 - forbidden")
    as (w' & Hrun & Hposts & _); [by_computation .. |].
  exists w'. split; [exact Hrun | exact Hposts].
Defined.

(** X14.  When the tailnet lists no device, the scheduled run sends the one
    message "No Tailscale devices found" and makes no access to the
    store. *)
Theorem empty_tailnet_notice (env : gmap string envval) (config : AppConfig)
    (o : oracle) (w : world) (token : string) :
  loadAppConfig env = Returned config ->
  access_token o = Returned token ->
  tailscale_api o = ApiData None \/ tailscale_api o = ApiData (Some []) ->
  exists w' : world,
    scheduled env o w = (Returned tt, w') /\
    posts (trace w') =
      (posts (trace w) ++ ["ℹ️ No Tailscale devices found in the tailnet\."])%list /\
    gets (trace w') = gets (trace w) /\
    puts (trace w') = puts (trace w) /\
    kv w' = kv w.
Proof.
  intros Hload Htoken Hempty.
  destruct (loadAppConfig_secrets _ _ Hload) as [Hbot Hchat].
  set (w1 := record_event (TailscaleGet (tailnetName config)) w).
  assert (Hquery : Tailscale.getTailscaleNodeDetails config o w =
                   (Returned {| Tailscale.success := true; Tailscale.devices := [];
                                Tailscale.message := Some "No devices found" |}, w1)).
  { unfold Tailscale.getTailscaleNodeDetails, bind, Tailscale.api_get.
    rewrite Htoken. destruct Hempty as [-> | ->]; reflexivity. }
  unfold scheduled. rewrite Hload. unfold try_catch, bind. rewrite Hquery.
  unfold on_status. cbn [Tailscale.success Tailscale.message negb].
  change (String.eqb "No devices found" "No devices found") with true. cbv iota.
  destruct (notify_returns config "ℹ️ No Tailscale devices found in the tailnet\." o w1)
    as (w' & Hrun & (Hkv & _ & Hputs & Hgets) & Hposts).
  rewrite Hrun. rewrite Hbot, Hchat in Hposts.
  exists w'. split; [reflexivity |].
  subst w1. cbn in Hkv, Hputs, Hgets, Hposts.
  rewrite puts_app in Hputs. rewrite gets_app in Hgets. rewrite posts_app in Hposts.
  cbn in Hputs, Hgets, Hposts. rewrite app_nil_r in Hputs, Hgets, Hposts.
  auto.
Qed.

Lemma empty_tailnet_notice_witness :
  exists w' : world,
    scheduled (sample_env "240" "tag:critical") (sample_oracle 1000 delivered)
      (sample_world ∅) = (Returned tt, w') /\
    gets (trace w') = [].
Proof.
  destruct (empty_tailnet_notice (sample_env "240" "tag:critical")
              (sample_config "240" "tag:critical") (sample_oracle 1000 delivered)
              (sample_world ∅) "token")
    as (w' & Hrun & _ & Hgets & _); [by_computation | reflexivity | now left |].
  exists w'. split; [exact Hrun | exact Hgets].
Defined.

(** What one pass does at most, whatever its outcome. *)
Lemma process_node_summary (config : AppConfig) (node : TailscaleDevice)
    (o : oracle) (w w' : world) (res : outcome unit) :
  process_node config node o w = (res, w') ->
  (kv w' = kv w \/ exists r, kv w' = <[kvKey node := RecordText r]> (kv w)) /\
  exists newPosts newPuts newGets,
    posts (trace w') = (posts (trace w) ++ newPosts)%list /\
    puts (trace w') = (puts (trace w) ++ newPuts)%list /\
    gets (trace w') = (gets (trace w) ++ newGets)%list /\
    (length newPosts <= 1)%nat /\ (length newPuts <= 1)%nat /\ (length newGets <= 1)%nat.
Proof.
  intros Hrun.
  assert (Hthrown : forall e,
             process_node config node o w = (Thrown e, record_event (KvGet (kvKey node)) w) ->
             (res, w') = (Thrown e, record_event (KvGet (kvKey node)) w) ->
             (kv w' = kv w \/ exists r, kv w' = <[kvKey node := RecordText r]> (kv w)) /\
             exists newPosts newPuts newGets,
               posts (trace w') = (posts (trace w) ++ newPosts)%list /\
               puts (trace w') = (puts (trace w) ++ newPuts)%list /\
               gets (trace w') = (gets (trace w) ++ newGets)%list /\
               (length newPosts <= 1)%nat /\ (length newPuts <= 1)%nat /\
               (length newGets <= 1)%nat).
  { intros e _ [= -> ->]. split; [now left |].
    exists [], [], [kvKey node]. cbn. rewrite posts_app, puts_app, gets_app. cbn.
    repeat split; auto. }
  destruct (skipped config node) eqn:Hskip.
  { rewrite (process_node_skipped _ _ _ _ Hskip) in Hrun. injection Hrun as <- <-.
    split; [now left |]. exists [], [], []. rewrite !app_nil_r. cbn. repeat split; auto. }
  destruct (kv_read_error o (kvKey node)) as [e |] eqn:Hread.
  { pose proof (process_node_throws config node o w e Hskip (or_introl Hread)) as Ht.
    apply (Hthrown e Ht). now rewrite <- Hrun, Ht. }
  destruct (previous_state (kv w !! kvKey node)) as [prev | e] eqn:Hprev.
  2:{ pose proof (process_node_throws config node o w e Hskip
                    (or_intror (conj Hread Hprev))) as Ht.
      apply (Hthrown e Ht). now rewrite <- Hrun, Ht. }
  destruct (process_node_effects_gen config node o w prev Hskip Hread Hprev)
    as (w2 & Hrun2 & Hkv & _ & Hgets & Hposts & Hputs).
  rewrite Hrun2 in Hrun. injection Hrun as <- <-.
  unfold store_after in Hkv. split.
  - destruct (persisted _); eauto.
  - do 3 eexists. split; [exact Hposts |]. split; [exact Hputs |]. split; [exact Hgets |].
    unfold sent. repeat split.
    + destruct (message _); [destruct (_ && _) |]; cbn; lia.
    + destruct (persisted _); cbn; lia.
    + cbn. lia.
Qed.

(** X15.  A cycle touches only the keys of the devices it is given: the
    text stored under any other key is the same after the cycle as before
    it, whatever the outcome of the cycle.  And no key is ever removed: a
    key that holds a text before the cycle holds one after it. *)
Theorem cycle_frame (config : AppConfig) (devices : list TailscaleDevice)
    (o : oracle) (w w' : world) (res : outcome unit) (key : string) :
  process_devices config devices o w = (res, w') ->
  ((forall node, In node devices -> kvKey node <> key) -> kv w' !! key = kv w !! key) /\
  (is_Some (kv w !! key) -> is_Some (kv w' !! key)).
Proof.
  revert w. induction devices as [| node rest IH]; intros w Hrun.
  - injection Hrun as <- <-. auto.
  - unfold process_devices in Hrun. cbn [for_each] in Hrun. unfold bind in Hrun.
    destruct (process_node config node o w) as [[[] | e] w1] eqn:Hnode.
    + destruct (process_node_summary _ _ _ _ _ _ Hnode) as [Hkv _].
      destruct (IH w1 Hrun) as [Hother Hkeeps]. split.
      * intros Hne. rewrite Hother by (intros n Hn; apply Hne; now right).
        destruct Hkv as [-> | [r ->]]; [reflexivity |].
        apply lookup_insert_ne. apply Hne. now left.
      * intros Hsome. apply Hkeeps.
        destruct Hkv as [-> | [r ->]]; [exact Hsome |].
        destruct (decide (kvKey node = key)) as [-> | Hne].
        -- rewrite lookup_insert_eq. eauto.
        -- now rewrite lookup_insert_ne.
    + injection Hrun as <- <-.
      destruct (process_node_summary _ _ _ _ _ _ Hnode) as [Hkv _]. split.
      * intros Hne. destruct Hkv as [-> | [r ->]]; [reflexivity |].
        apply lookup_insert_ne. apply Hne. now left.
      * intros Hsome. destruct Hkv as [-> | [r ->]]; [exact Hsome |].
        destruct (decide (kvKey node = key)) as [-> | Hne].
        -- rewrite lookup_insert_eq. eauto.
        -- now rewrite lookup_insert_ne.
Qed.

Lemma cycle_frame_witness :
  kv (snd (process_devices (sample_config "240" "tag:critical")
             [offline_node "a"; offline_node "b"] two_nodes_oracle
             (sample_world (pi_store no_record)))) !! "node:pi:pi"
  = Some (RecordText no_record).
Proof.
  destruct (cycle_frame (sample_config "240" "tag:critical")
              [offline_node "a"; offline_node "b"] two_nodes_oracle
              (sample_world (pi_store no_record))
              (snd (process_devices (sample_config "240" "tag:critical")
                      [offline_node "a"; offline_node "b"] two_nodes_oracle
                      (sample_world (pi_store no_record))))
              (Returned tt) "node:pi:pi") as [Hother _]; [by_computation |].
  rewrite Hother; [by_computation |].
  intros node [<- | [<- | []]]; by_computation.
Defined.



(** ** [getTailscaleNodeDetails] *)

Lemma classify_all_spec (now : Z) (threshold : jsint) (apiDevices : list ApiDevice) :
  (forall details, Tailscale.classify_all now threshold apiDevices = Returned details <->
     Forall2 (fun device d => Tailscale.classify now threshold device = Returned d)
       apiDevices details) /\
  (Exists (fun device => lastSeenTime device = None) apiDevices ->
     Tailscale.classify_all now threshold apiDevices = Thrown "Invalid time value").
Proof.
  induction apiDevices as [| device rest [IHok IHbad]].
  - split.
    + intros details. cbn. split.
      * intros [= <-]. constructor.
      * intros H. inversion H. reflexivity.
    + intros H. inversion H.
  - cbn [Tailscale.classify_all]. split.
    + intros details.
      destruct (Tailscale.classify now threshold device) as [d | e] eqn:Hd.
      * destruct (Tailscale.classify_all now threshold rest) as [ds | e] eqn:Hds.
        -- split.
           ++ intros [= <-]. constructor; [exact Hd | now apply IHok].
           ++ intros H. inversion H as [| ? d' ? ds' Hd' Hds']; subst.
              rewrite Hd in Hd'. injection Hd' as ->.
              apply IHok in Hds'. now injection Hds' as ->.
        -- split; [discriminate |].
           intros H. inversion H as [| ? d' ? ds' Hd' Hds']; subst.
           apply IHok in Hds'. discriminate.
      * split; [discriminate |].
        intros H. inversion H as [| ? d' ? ds' Hd' Hds']; subst. congruence.
    + intros H. unfold Tailscale.classify at 1.
      destruct (lastSeenTime device) as [t |] eqn:Ht; [| reflexivity].
      inversion H as [? ? Hnone | ? ? Hrest]; subst; [congruence |].
      now rewrite (IHbad Hrest).
Qed.

(** X17.  With a token and a non-empty device list, [getTailscaleNodeDetails]
    is all or nothing.  When every [lastSeen] is a date, it returns one
    entry per device of the reply, in the order of the reply, each the
    verdict on that device at the one instant the clock was read, and no
    message.  When one [lastSeen] is not a date, it throws "Invalid time
    value" and returns no device at all. *)
Theorem node_details_all_or_nothing (config : AppConfig) (o : oracle) (w : world)
    (token : string) (apiDevices : list ApiDevice) :
  access_token o = Returned token ->
  tailscale_api o = ApiData (Some apiDevices) ->
  apiDevices <> [] ->
  let now := clock o (clock_reads w) in
  (Forall (fun device => lastSeenTime device <> None) apiDevices ->
     exists (r : Tailscale.StatusResult) (w' : world),
       Tailscale.getTailscaleNodeDetails config o w = (Returned r, w') /\
       Tailscale.success r = true /\ Tailscale.message r = None /\
       Forall2 (fun device d =>
                  Tailscale.classify now (downThresholdMinutes config) device = Returned d /\
                  deviceId d = api_id device /\ name d = api_name device)
         apiDevices (Tailscale.devices r)) /\
  (Exists (fun device => lastSeenTime device = None) apiDevices ->
     exists w' : world,
       Tailscale.getTailscaleNodeDetails config o w = (Thrown "Invalid time value", w')).
Proof.
  intros Htoken Hapi Hne now.
  assert (Hlen : (Z.of_nat (length apiDevices) =? 0) = false).
  { destruct apiDevices; [contradiction | reflexivity]. }
  assert (Hrun : Tailscale.getTailscaleNodeDetails config o w =
                 match Tailscale.classify_all now (downThresholdMinutes config) apiDevices with
                 | Returned ds =>
                     (Returned {| Tailscale.success := true; Tailscale.devices := ds;
                                  Tailscale.message := None |},
                      snd (Date_now o (record_event (TailscaleGet (tailnetName config)) w)))
                 | Thrown e =>
                     (Thrown e,
                      snd (Date_now o (record_event (TailscaleGet (tailnetName config)) w)))
                 end).
  { unfold Tailscale.getTailscaleNodeDetails, bind, Tailscale.api_get, lift, Date_now, ret.
    rewrite Htoken, Hapi. change (default [] (Some apiDevices)) with apiDevices.
    rewrite Hlen.
    cbn [clock_reads record_event snd]. fold now.
    now destruct (Tailscale.classify_all now (downThresholdMinutes config) apiDevices). }
  destruct (classify_all_spec now (downThresholdMinutes config) apiDevices) as [Hok Hbad].
  split.
  - intros Hvalid.
    assert (Hall : exists ds, Tailscale.classify_all now (downThresholdMinutes config)
                                apiDevices = Returned ds).
    { clear -Hvalid. induction Hvalid as [| device rest Hd _ [ds IH]]; [now exists [] |].
      cbn [Tailscale.classify_all]. rewrite IH. unfold Tailscale.classify.
      destruct (lastSeenTime device); [eauto | contradiction]. }
    destruct Hall as [ds Hds]. rewrite Hds in Hrun.
    eexists _, _. split; [exact Hrun |]. cbn [Tailscale.success Tailscale.message
                                               Tailscale.devices].
    repeat split. apply Hok in Hds.
    eapply Forall2_impl; [exact Hds |]. cbn beta. intros device d Hd.
    split; [exact Hd |]. unfold Tailscale.classify in Hd.
    destruct (lastSeenTime device); [| discriminate]. now injection Hd as <-.
  - intros Hinvalid. rewrite (Hbad Hinvalid) in Hrun. eauto.
Qed.

Lemma node_details_all_or_nothing_witness :
  exists w' : world,
    Tailscale.getTailscaleNodeDetails (sample_config "240" "tag:critical")
      undated_oracle (sample_world ∅) = (Thrown "Invalid time value", w').
Proof.
  destruct (node_details_all_or_nothing (sample_config "240" "tag:critical")
              undated_oracle (sample_world ∅) "token" [api_node "a"; undated_node])
    as [_ Hbad]; [reflexivity | reflexivity | discriminate |].
  apply Hbad. right. left. reflexivity.
Defined.

(** X18.  The verdict is monotone.  Under one threshold, a device that is
    online at some instant is online at every earlier instant (so a device
    that is offline stays offline until it is seen again); at one instant,
    a device that is online under a threshold is online under every larger
    one. *)
Theorem verdict_monotone (device : ApiDevice) (now now' T T' : Z) (d' : TailscaleDevice) :
  Tailscale.classify now' (JsInt T') device = Returned d' ->
  isOnline d' = true ->
  now <= now' -> T' <= T ->
  exists d : TailscaleDevice,
    Tailscale.classify now (JsInt T) device = Returned d /\ isOnline d = true.
Proof.
  unfold Tailscale.classify. destruct (lastSeenTime device) as [t |]; [| discriminate].
  intros [= <-]. cbn [isOnline]. intros Hon Hnow HT.
  eexists. split; [reflexivity |]. cbn [isOnline].
  change (Js.le (minutes_of (now' - t)) (JsInt T') = true) in Hon.
  change (Js.le (minutes_of (now - t)) (JsInt T) = true).
  rewrite le_minutes in Hon |- *.
  apply Z.leb_le in Hon. apply Z.leb_le. lia.
Qed.

(** Online 15 minutes after the last contact, hence online 5 minutes
    after it. *)
Lemma verdict_monotone_witness :
  exists d : TailscaleDevice,
    Tailscale.classify 300000 (JsInt 15) (api_node "a") = Returned d /\ isOnline d = true.
Proof.
  apply (verdict_monotone (api_node "a") 300000 900000 15 15
           {| deviceId := "a"; name := "a.tail1234.ts.net"; hostname := "a";
              tailscaleIp := Some "100.64.0.1"; isOnline := true;
              lastSeen := "1970-01-01T00:00:00Z"; os := "linux";
              minutesSinceLastSeen := 15; tags := ["tag:critical"] |});
    by_computation.
Defined.

(** ** The status endpoint *)

Lemma loadAppConfig_api_token (env : gmap string envval) (config : AppConfig) :
  loadAppConfig env = Returned config -> truthy_str (apiAccessTokenWorker config) = true.
Proof.
  unfold loadAppConfig.
  destruct (ensureRequiredEnv env ALL_REQUIRED_KEYS) as [[] | e] eqn:Hok; [| discriminate].
  intros [= <-]. cbn [apiAccessTokenWorker].
  pose proof (ensureRequiredEnv_ok _ _ Hok "API_ACCESS_TOKEN_WORKER") as H.
  destruct (env !! "API_ACCESS_TOKEN_WORKER") as [[s |] |]; cbn in *;
    try reflexivity; apply H; unfold ALL_REQUIRED_KEYS; cbn [In]; auto.
Qed.

(** The loop over the keys only reads. *)
Lemma collect_frame (keys : list string) (o : oracle) :
  forall (w w' : world) (res : outcome (list Http.status_entry)),
    Http.collect keys o w = (res, w') ->
    kv w' = kv w /\ puts (trace w') = puts (trace w) /\
    posts (trace w') = posts (trace w) /\ telegram_calls w' = telegram_calls w.
Proof.
  induction keys as [| key rest IH]; intros w w' res.
  - intros [= <- <-]. auto.
  - cbn [Http.collect]. unfold bind at 1. unfold kv_get.
    assert (Hev : puts (trace (record_event (KvGet key) w)) = puts (trace w) /\
                  posts (trace (record_event (KvGet key) w)) = posts (trace w)).
    { cbn. rewrite puts_app, posts_app. cbn. now rewrite !app_nil_r. }
    destruct Hev as [Hputs Hposts].
    destruct (kv_read_error o key) as [e |].
    + intros [= <- <-]. auto.
    + unfold bind.
      destruct (Http.collect rest o (record_event (KvGet key) w)) as [[entries | e] w1] eqn:Hrest;
        destruct (IH _ _ _ Hrest) as (Hkv1 & Hputs1 & Hposts1 & Hcalls1);
        intros [= <- <-]; cbn in Hkv1, Hcalls1; repeat split; congruence.
Qed.

(** X19.  The status endpoint always answers and only reads: for every
    request, environment, store and failure of the store it returns a
    response whose status is 200, 401, 405 or 500, and it leaves the store
    as it is, writes nothing and sends no notification. *)
Theorem fetch_read_only (request : Http.Request) (env : gmap string envval)
    (o : oracle) (w : world) :
  exists (response : Http.Response) (w' : world),
    Http.fetch request env o w = (Returned response, w') /\
    In (Http.status response) [200; 401; 405; 500] /\
    kv w' = kv w /\
    puts (trace w') = puts (trace w) /\
    posts (trace w') = posts (trace w).
Proof.
  unfold Http.fetch.
  destruct (negb (String.eqb (Http.method request) "GET")).
  { eexists _, w. split; [reflexivity |]. cbn. auto 10. }
  destruct (loadAppConfig env) as [config | e].
  2:{ eexists _, w. split; [reflexivity |]. cbn. auto 10. }
  destruct (_ && _).
  { eexists _, w. split; [reflexivity |]. cbn. auto 10. }
  unfold try_catch, bind at 1, kv_list.
  assert (Hev : puts (trace (record_event KvList w)) = puts (trace w) /\
                posts (trace (record_event KvList w)) = posts (trace w)).
  { cbn. rewrite puts_app, posts_app. cbn. now rewrite !app_nil_r. }
  destruct Hev as [Hputs Hposts]. unfold bind.
  destruct (Http.collect _ o (record_event KvList w)) as [[entries | e] w1] eqn:Hcollect;
    destruct (collect_frame _ _ _ _ _ Hcollect) as (Hkv1 & Hputs1 & Hposts1 & _);
    eexists _, w1; (split; [reflexivity |]); cbn in Hkv1 |- *;
    repeat split; try congruence; auto 10.
Qed.

(** X20.  With a configuration that loads, the endpoint is never open: a
    GET whose [X-Auth-Token] is missing or differs from
    [API_ACCESS_TOKEN_WORKER] is answered 401 "Unauthorized", and the
    store is not touched. *)
Theorem fetch_requires_token (request : Http.Request) (env : gmap string envval)
    (config : AppConfig) (o : oracle) (w : world) :
  loadAppConfig env = Returned config ->
  Http.method request = "GET" ->
  Http.x_auth_token request <> Some (apiAccessTokenWorker config) ->
  Http.fetch request env o w =
  (Returned {| Http.status := 401; Http.headers := Http.json_headers;
               Http.body := Http.Failure "Unauthorized" |}, w).
Proof.
  intros Hload Hget Htoken. unfold Http.fetch.
  rewrite Hget, Hload, (loadAppConfig_api_token _ _ Hload).
  change (negb (String.eqb "GET" "GET")) with false. cbv iota.
  now rewrite bool_decide_eq_false_2.
Qed.

Lemma fetch_requires_token_witness :
  Http.fetch {| Http.method := "GET"; Http.x_auth_token := None |}
    (sample_env "240" "tag:critical") (sample_oracle 1000 delivered) (sample_world ∅)
  = (Returned {| Http.status := 401; Http.headers := Http.json_headers;
                 Http.body := Http.Failure "Unauthorized" |}, sample_world ∅).
Proof.
  apply (fetch_requires_token {| Http.method := "GET"; Http.x_auth_token := None |}
           (sample_env "240" "tag:critical") (sample_config "240" "tag:critical"));
    [by_computation | reflexivity | discriminate].
Defined.

(** *** From the key of a node back to its entry *)

Lemma split_not_nil (sep : ascii) (s : string) : Js.split sep s <> [].
Proof.
  destruct s as [| c rest]; cbn [Js.split]; [discriminate |].
  destruct (Ascii.eqb c sep); [discriminate |].
  destruct (Js.split sep rest); discriminate.
Qed.

Lemma split_plain (sep : ascii) (s : string) :
  ~ In sep (list_ascii_of_string s) -> Js.split sep s = [s].
Proof.
  induction s as [| c rest IH]; intros Hfree; [reflexivity |].
  cbn [Js.split]. cbn [list_ascii_of_string In] in Hfree.
  destruct (Ascii.eqb_spec c sep) as [-> | Hne]; [tauto |].
  rewrite IH by tauto. reflexivity.
Qed.

Lemma split_append_sep (sep : ascii) (a b : string) :
  ~ In sep (list_ascii_of_string a) ->
  Js.split sep (a +:+ String sep b) = a :: Js.split sep b.
Proof.
  induction a as [| c rest IH]; intros Hfree.
  - change (EmptyString +:+ String sep b) with (String sep b).
    cbn [Js.split]. now rewrite Ascii.eqb_refl.
  - change (String c rest +:+ String sep b) with (String c (rest +:+ String sep b)).
    cbn [Js.split]. cbn [list_ascii_of_string In] in Hfree.
    destruct (Ascii.eqb_spec c sep) as [-> | Hne]; [tauto |].
    rewrite IH by tauto. reflexivity.
Qed.

Lemma chars_append (a b : string) :
  list_ascii_of_string (a +:+ b) = (list_ascii_of_string a ++ list_ascii_of_string b)%list.
Proof.
  induction a as [| c rest IH]; [reflexivity |].
  change (String c rest +:+ b) with (String c (rest +:+ b)).
  cbn [list_ascii_of_string]. now rewrite IH.
Qed.

(** [split] gives one part more than the text has separators. *)
Lemma split_length (sep : ascii) (s : string) :
  length (Js.split sep s) = S (count_occ ascii_dec (list_ascii_of_string s) sep).
Proof.
  induction s as [| c rest IH]; [reflexivity |].
  cbn [Js.split list_ascii_of_string].
  destruct (Ascii.eqb_spec c sep) as [-> | Hne].
  - rewrite count_occ_cons_eq by reflexivity. cbn [length]. now rewrite IH.
  - rewrite count_occ_cons_neq by exact Hne.
    destruct (Js.split sep rest) as [| h t] eqn:Hsplit.
    + now destruct (split_not_nil sep rest).
    + cbn [length] in *. exact IH.
Qed.

Lemma kvKey_shape (node : TailscaleDevice) :
  kvKey node = "node" +:+ String ":"%char (deviceId node +:+ String ":"%char (shortNodeName node)).
Proof. reflexivity. Qed.

(** X21.  The endpoint reads a record back under the names it was written
    with: for a record whose timestamps are instants of the [Date] range,
    stored under the key of a node, the listing entry carries the node's id
    and short name, the stored state, and each timestamp as [null] when it
    is 0 and as its ISO text otherwise, provided neither the id nor the short
    name holds a colon.  When one of them holds a colon the key has more
    than three parts and the record is left out of the listing. *)
Theorem listing_entry_of_record (node : TailscaleDevice) (r : StoredNodeState) :
  Z.abs (alertTs r) <= 8640000000000000 ->
  Z.abs (firstDownTs r) <= 8640000000000000 ->
  (~ In ":"%char (list_ascii_of_string (deviceId node)) ->
   ~ In ":"%char (list_ascii_of_string (shortNodeName node)) ->
   Http.entry_of (kvKey node) (JSON_stringify r) =
   Returned (Some {| Http.nodeId := deviceId node;
                     Http.shortName := shortNodeName node;
                     Http.status_state := state r;
                     Http.status_alertTs :=
                       if alertTs r =? 0 then Http.ts_null else Http.ts_iso (alertTs r);
                     Http.status_firstDownTs :=
                       if firstDownTs r =? 0 then Http.ts_null
                       else Http.ts_iso (firstDownTs r) |})) /\
  (In ":"%char (list_ascii_of_string (deviceId node)) \/
   In ":"%char (list_ascii_of_string (shortNodeName node)) ->
   Http.entry_of (kvKey node) (JSON_stringify r) = Returned None).
Proof.
  intros HA HF. split.
  - intros Hid Hshort. unfold Http.entry_of, JSON_stringify. cbn [JSON_parse].
    rewrite kvKey_shape.
    rewrite split_append_sep by (cbn; intros H; decompose [or] H; discriminate || assumption).
    rewrite split_append_sep by exact Hid.
    rewrite split_plain by exact Hshort.
    change (String.eqb "node" "node") with true. cbv iota.
    unfold Http.humanReadable.
    destruct (alertTs r =? 0); destruct (firstDownTs r =? 0);
      repeat match goal with
             | |- context [ Z.abs ?z <=? ?m ] =>
                 destruct (Z.leb_spec (Z.abs z) m); [| lia]
             end; reflexivity.
  - intros Hcolon. unfold Http.entry_of, JSON_stringify. cbn [JSON_parse].
    assert (Hlen : (3 < length (Js.split ":"%char (kvKey node)))%nat).
    { rewrite split_length, kvKey_shape, chars_append.
      cbn [list_ascii_of_string app].
      rewrite !count_occ_cons_neq by discriminate.
      rewrite count_occ_cons_eq by reflexivity.
      rewrite chars_append, count_occ_app. cbn [list_ascii_of_string].
      rewrite count_occ_cons_eq by reflexivity.
      destruct Hcolon as [H | H]; apply (count_occ_In ascii_dec) in H; lia. }
    destruct (Js.split ":"%char (kvKey node)) as [| p0 [| p1 [| p2 [| p3 rest]]]];
      cbn [length] in Hlen; try lia; reflexivity.
Qed.

Lemma listing_entry_of_record_witness :
  Http.entry_of "node:pi:pi" (RecordText {| state := Some OFFLINE; alertTs := 1000;
                                            firstDownTs := 0 |}) =
  Returned (Some {| Http.nodeId := "pi"; Http.shortName := "pi";
                    Http.status_state := Some OFFLINE;
                    Http.status_alertTs := Http.ts_iso 1000;
                    Http.status_firstDownTs := Http.ts_null |}).
Proof.
  destruct (listing_entry_of_record (pi_node false)
              {| state := Some OFFLINE; alertTs := 1000; firstDownTs := 0 |})
    as [Hplain _]; [by_computation | by_computation |].
  apply Hplain; intros H; vm_compute in H; intuition discriminate.
Defined.

(** *** The listing *)

Lemma listed_keys (m : gmap string kvtext) (k : string) :
  In k (map fst (map_to_list m)) <-> is_Some (m !! k).
Proof.
  rewrite in_map_iff. split.
  - intros ([k' t] & <- & Hin). apply list_elem_of_In, elem_of_map_to_list in Hin.
    now exists t.
  - intros [t Ht]. exists (k, t). split; [reflexivity |].
    now apply list_elem_of_In, elem_of_map_to_list.
Qed.


(** A failed read ends the loop with the error of that read. *)
Lemma collect_throws (keys : list string) (o : oracle) :
  (exists k, In k keys /\ kv_read_error o k <> None) ->
  forall w : world,
    exists (e : string) (w' : world),
      Http.collect keys o w = (Thrown e, w') /\
      exists k, In k keys /\ kv_read_error o k = Some e.
Proof.
  induction keys as [| key rest IH]; intros (k & Hin & Hfail) w; [destruct Hin |].
  cbn [Http.collect]. unfold bind at 1. unfold kv_get.
  destruct (kv_read_error o key) as [e |] eqn:Hread.
  - exists e. eexists. split; [reflexivity |]. exists key. split; [now left | exact Hread].
  - destruct Hin as [-> | Hin]; [congruence |].
    destruct (IH (ex_intro _ k (conj Hin Hfail)) (record_event (KvGet key) w))
      as (e & w' & Hrun & k' & Hk' & He).
    unfold bind. rewrite Hrun. exists e, w'. split; [reflexivity |].
    exists k'. split; [now right | exact He].
Qed.



(** X23.  A read that fails is not skipped like a value that does not
    parse: when the read of some stored key is rejected, an authorised GET
    is answered 500 with "Failed to retrieve statuses from KV: " and the
    message of a rejected read, no partial listing is returned, and the
    store is unchanged. *)
Theorem fetch_read_failure (request : Http.Request) (env : gmap string envval)
    (config : AppConfig) (o : oracle) (w : world) (k : string) :
  loadAppConfig env = Returned config ->
  Http.method request = "GET" ->
  Http.x_auth_token request = Some (apiAccessTokenWorker config) ->
  is_Some (kv w !! k) ->
  kv_read_error o k <> None ->
  exists (e : string) (w' : world),
    Http.fetch request env o w =
    (Returned {| Http.status := 500; Http.headers := Http.json_headers;
                 Http.body := Http.Failure ("Failed to retrieve statuses from KV: " +:+ e) |},
     w') /\
    (exists k', is_Some (kv w !! k') /\ kv_read_error o k' = Some e) /\
    kv w' = kv w.
Proof.
  intros Hload Hget Htoken Hstored Hfail. unfold Http.fetch.
  rewrite Hget, Hload, Htoken.
  change (negb (String.eqb "GET" "GET")) with false. cbv iota.
  rewrite bool_decide_eq_true_2 by reflexivity. rewrite andb_false_r.
  unfold try_catch, bind at 1, kv_list.
  destruct (collect_throws (map fst (map_to_list (kv w))) o
              (ex_intro _ k (conj (proj2 (listed_keys _ _) Hstored) Hfail))
              (record_event KvList w))
    as (e & w' & Hrun & k' & Hk' & He).
  unfold bind. rewrite Hrun. exists e, w'. split; [reflexivity |]. split.
  - exists k'. split; [now apply listed_keys | exact He].
  - now destruct (collect_frame _ _ _ _ _ Hrun) as (Hkv & _).
Qed.

Lemma fetch_read_failure_witness :
  exists (e : string) (w' : world),
    Http.fetch {| Http.method := "GET"; Http.x_auth_token := Some "secret" |}
      (sample_env "240" "tag:critical") unreadable_oracle
      (sample_world (pi_store {| state := Some OFFLINE; alertTs := 1000; firstDownTs := 1000 |}))
    = (Returned {| Http.status := 500; Http.headers := Http.json_headers;
                   Http.body :=
                     Http.Failure ("Failed to retrieve statuses from KV: " +:+ e) |}, w').
Proof.
  destruct (fetch_read_failure {| Http.method := "GET"; Http.x_auth_token := Some "secret" |}
              (sample_env "240" "tag:critical") (sample_config "240" "tag:critical")
              unreadable_oracle
              (sample_world (pi_store {| state := Some OFFLINE; alertTs := 1000;
                                         firstDownTs := 1000 |}))
              "node:pi:pi")
    as (e & w' & Hrun & _);
    [by_computation | reflexivity | reflexivity
    | unfold sample_world, pi_store; cbn [kv]; rewrite lookup_singleton_eq; now eexists
    | discriminate |].
  exists e, w'. exact Hrun.
Defined.

(** ** The access token and its cache *)

(** The first [try] block never throws, only reads, and hands over the
    stored token exactly when [valid_cached_token] names it. *)
Lemma cached_token_run (config : Auth.AccessTokenConfig) (o : Auth.oracle) (w : Auth.world) :
  exists w1 : Auth.world,
    Auth.cached_token config o w = (Returned (Auth.valid_cached_token config o w), w1) /\
    Auth.cache w1 = Auth.cache w /\
    Auth.oauth_calls w1 = Auth.oauth_calls w /\
    Auth.trace w1 = (Auth.trace w ++ [Auth.CacheGet (Auth.tokenKVKey config)])%list /\
    (Auth.clock_reads w <= Auth.clock_reads w1)%nat /\
    (Auth.valid_cached_token config o w <> None ->
     Auth.clock_reads w1 = S (Auth.clock_reads w)).
Proof.
  unfold Auth.cached_token, Auth.valid_cached_token, Auth.try_catch, Auth.bind,
    Auth.cache_get, Auth.lift, Auth.ret.
  destruct (Auth.cache_read_error o (Auth.tokenKVKey config)) as [err |].
  { eexists. split; [reflexivity |]. cbn. repeat split; auto; congruence. }
  destruct (Auth.cache w !! Auth.tokenKVKey config) as [[a [e |] | | bad] |];
    cbn [Auth.truthy_text Auth.JSON_parse Auth.accessToken Auth.expiresAt
         Auth.truthy_jsint Auth.lt];
    try (eexists; split; [reflexivity |]; cbn; repeat split; auto; congruence).
  - destruct (truthy_str a); cbn [andb];
      [| eexists; split; [reflexivity |]; cbn; repeat split; auto; congruence].
    destruct (e =? 0); cbn [negb];
      [eexists; split; [reflexivity |]; cbn; repeat split; auto; congruence |].
    unfold Auth.Date_now. cbn [Auth.record_event Auth.clock_reads].
    destruct (Auth.clock o (Auth.clock_reads w) <? e);
      eexists; (split; [reflexivity |]); cbn; repeat split; auto.
  - destruct (truthy_str a); cbn [andb];
      eexists; (split; [reflexivity |]); cbn; repeat split; auto; congruence.
Qed.

Lemma valid_cached_token_Some (config : Auth.AccessTokenConfig) (o : Auth.oracle)
    (w : Auth.world) (token : string) :
  Auth.valid_cached_token config o w = Some token <->
  Auth.cache_read_error o (Auth.tokenKVKey config) = None /\
  token <> EmptyString /\
  exists e : Z,
    Auth.cache w !! Auth.tokenKVKey config = Some (Auth.TokenText token (JsInt e)) /\
    e <> 0 /\ Auth.clock o (Auth.clock_reads w) < e.
Proof.
  unfold Auth.valid_cached_token. split.
  - destruct (Auth.cache_read_error o (Auth.tokenKVKey config)); [discriminate |].
    destruct (Auth.cache w !! Auth.tokenKVKey config) as [[a [e |] | | bad] |];
      try discriminate.
    destruct a as [| c a]; [discriminate |]. cbn [truthy_str andb].
    destruct (Z.eqb_spec e 0); [discriminate |]. cbn [negb].
    destruct (Z.ltb_spec (Auth.clock o (Auth.clock_reads w)) e); [| discriminate].
    intros [= <-]. split; [reflexivity |]. split; [discriminate |]. now exists e.
  - intros (-> & Hne & e & -> & He & Hlt).
    destruct token as [| c a]; [congruence |]. cbn [truthy_str andb].
    destruct (Z.eqb_spec e 0); [contradiction |]. cbn [negb].
    destruct (Z.ltb_spec (Auth.clock o (Auth.clock_reads w)) e); [reflexivity | lia].
Qed.

Lemma access_token_hit (config : Auth.AccessTokenConfig) (o : Auth.oracle) (w : Auth.world)
    (token : string) :
  Auth.valid_cached_token config o w = Some token ->
  Auth.getTailscaleAccessToken config o w =
  (Returned token,
   {| Auth.cache := Auth.cache w; Auth.clock_reads := S (Auth.clock_reads w);
      Auth.oauth_calls := Auth.oauth_calls w;
      Auth.trace := (Auth.trace w ++ [Auth.CacheGet (Auth.tokenKVKey config)])%list |}).
Proof.
  intros Hvalid.
  destruct (cached_token_run config o w) as (w1 & Hrun & Hcache & Hcalls & Htrace & _ & Hreads).
  unfold Auth.getTailscaleAccessToken, Auth.bind at 1. rewrite Hrun, Hvalid.
  unfold Auth.ret. f_equal. destruct w1 as [c r n t]. cbn in *.
  rewrite Hreads by congruence. congruence.
Qed.

(** Without a valid stored token one OAuth request is made; its failure is
    the failure of the call, and its token is returned after the attempt to
    store it. *)
Lemma access_token_miss (config : Auth.AccessTokenConfig) (o : Auth.oracle) (w : Auth.world) :
  Auth.valid_cached_token config o w = None ->
  exists reads : nat,
    (Auth.clock_reads w <= reads)%nat /\
    let key := Auth.tokenKVKey config in
    let request :=
      [Auth.CacheGet key;
       Auth.OauthPost (Auth.tsOauthClientId config) (Auth.tsOauthClientSecret config)] in
    let failed :=
      {| Auth.cache := Auth.cache w; Auth.clock_reads := reads;
         Auth.oauth_calls := S (Auth.oauth_calls w);
         Auth.trace := (Auth.trace w ++ request)%list |} in
    Auth.getTailscaleAccessToken config o w =
    match Auth.oauth o (Auth.oauth_calls w) with
    | Auth.OauthRejects err => (Thrown err, failed)
    | Auth.OauthNotOk status errorText =>
        (Thrown ("Tailscale OAuth Error: " +:+ show status +:+ " - " +:+ errorText), failed)
    | Auth.OauthBadJson err => (Thrown err, failed)
    | Auth.OauthData d =>
        let buffer := Auth.tokenExpiryBufferSeconds config in
        let text :=
          Auth.TokenText (Auth.access_token d)
            (Auth.expiry (Auth.clock o reads) (Auth.expires_in d) buffer) in
        let ttl := Auth.expirationTtl (Auth.expires_in d) buffer in
        (Returned (Auth.access_token d),
         {| Auth.cache :=
              match Auth.cache_write_error o key ttl with
              | Some _ => Auth.cache w
              | None => <[key := text]> (Auth.cache w)
              end;
            Auth.clock_reads := S reads;
            Auth.oauth_calls := S (Auth.oauth_calls w);
            Auth.trace := (Auth.trace w ++ request ++ [Auth.CachePut key text ttl])%list |})
    end.
Proof.
  intros Hvalid.
  destruct (cached_token_run config o w) as (w1 & Hrun & Hcache & Hcalls & Htrace & Hle & _).
  exists (Auth.clock_reads w1). split; [exact Hle |].
  unfold Auth.getTailscaleAccessToken, Auth.bind at 1. rewrite Hrun, Hvalid.
  unfold Auth.bind at 1. unfold Auth.fetchNewTailscaleAccessToken.
  rewrite Hcalls, Hcache, Htrace, <- !app_assoc. cbn [app].
  destruct (Auth.oauth o (Auth.oauth_calls w)) as [err | status errorText | err | d];
    try reflexivity.
  unfold Auth.bind, Auth.Date_now, Auth.try_catch, Auth.cache_put, Auth.ret,
    Auth.JSON_stringify, Auth.record_event.
  cbn [Auth.cache Auth.clock_reads Auth.oauth_calls Auth.trace Auth.accessToken
       Auth.expiresAt].
  destruct (Auth.cache_write_error o (Auth.tokenKVKey config) _);
    rewrite <- ?app_assoc; reflexivity.
Qed.

(** X24.  A stored token that is complete and not yet expired is returned
    as it is: when the read of the token key succeeds and gives a record
    with a non-empty [accessToken] and a non-zero [expiresAt] that the clock
    has not reached, the call returns that token after one read of the cache
    and one reading of the clock, with no OAuth request and no write. *)
Theorem cached_token_is_reused (config : Auth.AccessTokenConfig) (o : Auth.oracle)
    (w : Auth.world) (token : string) (e : Z) :
  Auth.cache_read_error o (Auth.tokenKVKey config) = None ->
  Auth.cache w !! Auth.tokenKVKey config = Some (Auth.TokenText token (JsInt e)) ->
  token <> EmptyString ->
  e <> 0 ->
  Auth.clock o (Auth.clock_reads w) < e ->
  Auth.getTailscaleAccessToken config o w =
  (Returned token,
   {| Auth.cache := Auth.cache w; Auth.clock_reads := S (Auth.clock_reads w);
      Auth.oauth_calls := Auth.oauth_calls w;
      Auth.trace := (Auth.trace w ++ [Auth.CacheGet (Auth.tokenKVKey config)])%list |}).
Proof.
  intros Hread Hstored Htoken He Hlt. apply access_token_hit.
  apply valid_cached_token_Some. split; [exact Hread |]. split; [exact Htoken |].
  now exists e.
Qed.

Lemma cached_token_is_reused_witness :
  Auth.getTailscaleAccessToken auth_config (issuing_oracle 1000)
    (auth_world {[ "tailscale_oauth_token" := Auth.TokenText "stored" (JsInt 5000) ]})
  = (Returned "stored",
     {| Auth.cache := {[ "tailscale_oauth_token" := Auth.TokenText "stored" (JsInt 5000) ]};
        Auth.clock_reads := 1; Auth.oauth_calls := 0;
        Auth.trace := [Auth.CacheGet "tailscale_oauth_token"] |}).
Proof.
  refine (cached_token_is_reused auth_config (issuing_oracle 1000)
            (auth_world {[ "tailscale_oauth_token" := Auth.TokenText "stored" (JsInt 5000) ]})
            "stored" 5000 _ _ _ _ _);
    [reflexivity | apply lookup_singleton_eq | discriminate | lia | cbn; lia].
Defined.

(** X25.  The OAuth endpoint is spared only for a valid stored token: a
    call that ends without an OAuth request has returned the token stored
    under the token key, whose [expiresAt] the clock had not reached.  An
    expired, incomplete or unreadable record is never answered from. *)
Theorem no_request_only_when_valid (config : Auth.AccessTokenConfig) (o : Auth.oracle)
    (w w' : Auth.world) (res : outcome string) :
  Auth.getTailscaleAccessToken config o w = (res, w') ->
  Auth.oauth_calls w' = Auth.oauth_calls w ->
  exists (token : string) (e : Z),
    res = Returned token /\
    Auth.cache_read_error o (Auth.tokenKVKey config) = None /\
    Auth.cache w !! Auth.tokenKVKey config = Some (Auth.TokenText token (JsInt e)) /\
    token <> EmptyString /\
    Auth.clock o (Auth.clock_reads w) < e.
Proof.
  intros Hrun Hcalls.
  destruct (Auth.valid_cached_token config o w) as [token |] eqn:Hvalid.
  - rewrite (access_token_hit _ _ _ _ Hvalid) in Hrun. injection Hrun as <- <-.
    apply valid_cached_token_Some in Hvalid as (Hread & Htoken & e & Hstored & _ & Hlt).
    now exists token, e.
  - destruct (access_token_miss _ _ _ Hvalid) as (reads & _ & Hmiss). cbv zeta in Hmiss.
    rewrite Hmiss in Hrun.
    destruct (Auth.oauth o (Auth.oauth_calls w)); injection Hrun as <- <-;
      cbn in Hcalls; lia.
Qed.

Lemma no_request_only_when_valid_witness :
  exists (token : string) (e : Z),
    Auth.cache (auth_world {[ "tailscale_oauth_token" := Auth.TokenText "stored" (JsInt 5000) ]})
      !! "tailscale_oauth_token" = Some (Auth.TokenText token (JsInt e)) /\
    1000 < e.
Proof.
  destruct (no_request_only_when_valid auth_config (issuing_oracle 1000)
              (auth_world {[ "tailscale_oauth_token" := Auth.TokenText "stored" (JsInt 5000) ]})
              {| Auth.cache := {[ "tailscale_oauth_token" := Auth.TokenText "stored" (JsInt 5000) ]};
                 Auth.clock_reads := 1; Auth.oauth_calls := 0;
                 Auth.trace := [Auth.CacheGet "tailscale_oauth_token"] |}
              (Returned "stored"))
    as (token & e & _ & _ & Hstored & _ & Hlt); [by_computation | reflexivity |].
  exists token, e. split; [exact Hstored | exact Hlt].
Defined.

(** X26.  Every failure of the call is a failure of the OAuth request:
    when the call throws, one OAuth request was made after the read of the
    cache, the error is that of the request (for a reply that is not ok,
    "Tailscale OAuth Error: <status> - <body>"), the cache holds what it
    held and nothing was written.  A rejected read, a corrupt record or a
    rejected write of the cache never surfaces. *)
Theorem token_errors_come_from_oauth (config : Auth.AccessTokenConfig) (o : Auth.oracle)
    (w w' : Auth.world) (err : string) :
  Auth.getTailscaleAccessToken config o w = (Thrown err, w') ->
  match Auth.oauth o (Auth.oauth_calls w) with
  | Auth.OauthRejects e => err = e
  | Auth.OauthNotOk status errorText =>
      err = "Tailscale OAuth Error: " +:+ show status +:+ " - " +:+ errorText
  | Auth.OauthBadJson e => err = e
  | Auth.OauthData _ => False
  end /\
  Auth.cache w' = Auth.cache w /\
  Auth.oauth_calls w' = S (Auth.oauth_calls w) /\
  Auth.trace w' =
  (Auth.trace w ++
   [Auth.CacheGet (Auth.tokenKVKey config);
    Auth.OauthPost (Auth.tsOauthClientId config) (Auth.tsOauthClientSecret config)])%list.
Proof.
  intros Hrun.
  destruct (Auth.valid_cached_token config o w) as [token |] eqn:Hvalid.
  - rewrite (access_token_hit _ _ _ _ Hvalid) in Hrun. discriminate Hrun.
  - destruct (access_token_miss _ _ _ Hvalid) as (reads & _ & Hmiss). cbv zeta in Hmiss.
    rewrite Hmiss in Hrun.
    destruct (Auth.oauth o (Auth.oauth_calls w)); try discriminate Hrun;
      injection Hrun as <- <-; cbn; auto.
Qed.

Lemma token_errors_come_from_oauth_witness :
  Auth.getTailscaleAccessToken auth_config refusing_oracle (auth_world ∅) =
  (Thrown "Tailscale OAuth Error: 401 - invalid_client",
   {| Auth.cache := ∅; Auth.clock_reads := 0; Auth.oauth_calls := 1;
      Auth.trace := [Auth.CacheGet "tailscale_oauth_token"; Auth.OauthPost "cid" "cs"] |}) /\
  "Tailscale OAuth Error: 401 - invalid_client" =
  "Tailscale OAuth Error: " +:+ show 401 +:+ " - " +:+ "invalid_client".
Proof.
  assert (Hrun : Auth.getTailscaleAccessToken auth_config refusing_oracle (auth_world ∅) =
                 (Thrown "Tailscale OAuth Error: 401 - invalid_client",
                  {| Auth.cache := ∅; Auth.clock_reads := 0; Auth.oauth_calls := 1;
                     Auth.trace := [Auth.CacheGet "tailscale_oauth_token";
                                    Auth.OauthPost "cid" "cs"] |}))
    by by_computation.
  split; [exact Hrun |].
  exact (proj1 (token_errors_come_from_oauth auth_config refusing_oracle (auth_world ∅) _ _
                  Hrun)).
Defined.

(** X27.  A cache that is out of order costs a request, not the token:
    when the read of the token key is rejected and the OAuth endpoint
    issues a token, the call returns the issued token after one request,
    and when the write is rejected too the cache is left as it was. *)
Theorem broken_cache_still_yields_token (config : Auth.AccessTokenConfig) (o : Auth.oracle)
    (w : Auth.world) (d : Auth.TokenResponse) :
  Auth.cache_read_error o (Auth.tokenKVKey config) <> None ->
  Auth.oauth o (Auth.oauth_calls w) = Auth.OauthData d ->
  exists w' : Auth.world,
    Auth.getTailscaleAccessToken config o w = (Returned (Auth.access_token d), w') /\
    Auth.oauth_calls w' = S (Auth.oauth_calls w) /\
    (Auth.cache_write_error o (Auth.tokenKVKey config)
       (Auth.expirationTtl (Auth.expires_in d) (Auth.tokenExpiryBufferSeconds config))
     <> None ->
     Auth.cache w' = Auth.cache w).
Proof.
  intros Hread Hreply.
  assert (Hvalid : Auth.valid_cached_token config o w = None).
  { unfold Auth.valid_cached_token.
    destruct (Auth.cache_read_error o (Auth.tokenKVKey config)); [reflexivity | congruence]. }
  destruct (access_token_miss _ _ _ Hvalid) as (reads & _ & Hmiss). cbv zeta in Hmiss.
  rewrite Hreply in Hmiss. eexists. split; [exact Hmiss |]. split; [reflexivity |].
  cbn [Auth.cache]. intros Hwrite.
  destruct (Auth.cache_write_error o (Auth.tokenKVKey config) _); [reflexivity | congruence].
Qed.

Lemma broken_cache_still_yields_token_witness :
  exists w' : Auth.world,
    Auth.getTailscaleAccessToken auth_config broken_cache_oracle (auth_world ∅)
    = (Returned "fresh", w') /\
    Auth.cache w' = ∅.
Proof.
  destruct (broken_cache_still_yields_token auth_config broken_cache_oracle (auth_world ∅)
              {| Auth.access_token := "fresh"; Auth.expires_in := JsInt 3600 |})
    as (w' & Hrun & _ & Hcache); [discriminate | reflexivity |].
  exists w'. split; [exact Hrun |]. apply Hcache. discriminate.
Defined.

(** X28.  A token that was fetched and stored is reused until its buffer
    begins, and not after.  When no valid token is stored, the endpoint
    issues a non-empty token for [e] seconds, the buffer is [b] seconds and
    the cache accepts the write, the call returns the token and stores it
    with [expiresAt = now + (e - b) * 1000], [now] being the reading of the
    clock after the request, under the time to live [e - b / 2].  A second
    call over that cache returns the same token without a request while
    the clock reads less than [expiresAt], and makes a new request once
    the clock has reached it. *)
Theorem refresh_then_reuse (config : Auth.AccessTokenConfig) (o : Auth.oracle)
    (w : Auth.world) (token : string) (e b : Z) :
  Auth.valid_cached_token config o w = None ->
  Auth.oauth o (Auth.oauth_calls w) =
    Auth.OauthData {| Auth.access_token := token; Auth.expires_in := JsInt e |} ->
  Auth.tokenExpiryBufferSeconds config = JsInt b ->
  token <> EmptyString ->
  Auth.cache_read_error o (Auth.tokenKVKey config) = None ->
  Auth.cache_write_error o (Auth.tokenKVKey config)
    (Some (inject_Z e - inject_Z b / 2)%Q) = None ->
  exists w1 : Auth.world,
    let key := Auth.tokenKVKey config in
    let expiresAt := Auth.clock o (pred (Auth.clock_reads w1)) + (e - b) * 1000 in
    Auth.getTailscaleAccessToken config o w = (Returned token, w1) /\
    Auth.cache w1 = <[key := Auth.TokenText token (JsInt expiresAt)]> (Auth.cache w) /\
    Auth.oauth_calls w1 = S (Auth.oauth_calls w) /\
    (expiresAt <> 0 ->
     Auth.clock o (Auth.clock_reads w1) < expiresAt ->
     exists w2 : Auth.world,
       Auth.getTailscaleAccessToken config o w1 = (Returned token, w2) /\
       Auth.oauth_calls w2 = Auth.oauth_calls w1 /\
       Auth.cache w2 = Auth.cache w1) /\
    (expiresAt <= Auth.clock o (Auth.clock_reads w1) ->
     forall (res : outcome string) (w2 : Auth.world),
       Auth.getTailscaleAccessToken config o w1 = (res, w2) ->
       Auth.oauth_calls w2 = S (Auth.oauth_calls w1)).
Proof.
  intros Hvalid Hreply Hbuffer Htoken Hread Hwrite.
  destruct (access_token_miss _ _ _ Hvalid) as (reads & _ & Hmiss). cbv zeta in Hmiss.
  rewrite Hreply, Hbuffer in Hmiss.
  cbn [Auth.access_token Auth.expires_in Auth.expiry Auth.expirationTtl] in Hmiss.
  rewrite Hwrite in Hmiss.
  eexists. cbv zeta. split; [exact Hmiss |].
  cbn [Auth.cache Auth.clock_reads Auth.oauth_calls pred].
  split; [reflexivity |]. split; [reflexivity |].
  set (w1 := {| Auth.cache := _; Auth.clock_reads := S reads |}) in *.
  assert (Hstored : Auth.cache w1 !! Auth.tokenKVKey config =
                    Some (Auth.TokenText token
                            (JsInt (Auth.clock o reads + (e - b) * 1000)))).
  { subst w1. cbn [Auth.cache]. apply lookup_insert_eq. }
  split.
  - intros Hnz Hlt.
    assert (Hhit : Auth.valid_cached_token config o w1 = Some token).
    { apply valid_cached_token_Some. split; [exact Hread |]. split; [exact Htoken |].
      eexists. split; [exact Hstored |]. split; [exact Hnz | exact Hlt]. }
    eexists. split; [exact (access_token_hit _ _ _ _ Hhit) |]. split; reflexivity.
  - intros Hexpired res w2 Hrun2.
    destruct (Auth.valid_cached_token config o w1) as [token' |] eqn:Hvalid1.
    + apply valid_cached_token_Some in Hvalid1 as (_ & _ & e' & Hstored' & _ & Hlt).
      rewrite Hstored in Hstored'. injection Hstored' as _ <-.
      change (Auth.clock_reads w1) with (S reads) in Hlt. lia.
    + destruct (access_token_miss _ _ _ Hvalid1) as (reads1 & _ & Hmiss1).
      cbv zeta in Hmiss1. rewrite Hmiss1 in Hrun2.
      destruct (Auth.oauth o (Auth.oauth_calls w1)); injection Hrun2 as <- <-; reflexivity.
Qed.

Lemma refresh_then_reuse_witness :
  exists w1 : Auth.world,
    Auth.getTailscaleAccessToken auth_config (issuing_oracle 1000) (auth_world ∅)
    = (Returned "fresh", w1) /\
    Auth.cache w1 =
    <["tailscale_oauth_token" := Auth.TokenText "fresh" (JsInt 3301000)]> ∅.
Proof.
  destruct (refresh_then_reuse auth_config (issuing_oracle 1000) (auth_world ∅)
              "fresh" 3600 300)
    as (w1 & Hrun & Hcache & _);
    [reflexivity | reflexivity | reflexivity | discriminate | reflexivity | reflexivity |].
  exists w1. split; [exact Hrun | exact Hcache].
Defined.
